(** * CarbonLensAI-Industrial: the emissions calculator of [app.py]

    A shallow embedding of the request handler [index] and of
    [calculate_scenarios], with the properties stated about them.

    Numbers.  The program computes with Python floats.  Here a number is an
    exact rational ([Q], compared with [==]); the special values inf and nan
    and the rounding error of binary64 are outside the model.  Every concrete
    input used below is chosen so that the binary64 run takes the same
    branches.

    The module [Binary64] at the end of the embedding repeats one block
    over binary64 numbers, to show an overflow.

    Exceptions.  A Python expression that can raise ([a / b] with a computed
    divisor, [d[k]], [l[0]]) returns in the [result] monad.  A division by a
    nonzero literal ([x / 100]) cannot raise and is written with [/]. *)

From Stdlib Require Import QArith Qround Qabs ZArith String Ascii List Bool.
From Stdlib Require Import Lqa Lia Permutation Sorted DecimalString.
From Stdlib Require PrimFloat FloatOps SpecFloat Uint63.
Import ListNotations.

Open Scope Q_scope.

(** ** Python values and builtins *)

Inductive exn : Type :=
| ZeroDivisionError
| KeyError (key : string)
| IndexError.

Inductive result (A : Type) : Type :=
| Ok (a : A)
| Raise (e : exn).

Arguments Ok {A} a.
Arguments Raise {A} e.

Definition bind {A B : Type} (m : result A) (k : A -> result B) : result B :=
  match m with
  | Ok a => k a
  | Raise e => Raise e
  end.

Notation "x <- m ;; k" := (bind m (fun x => k))
  (at level 61, m at next level, right associativity).

(** Comparisons of numbers, as booleans. *)
Definition Qltb (x y : Q) : bool := negb (Qle_bool y x).
Definition Qgtb (x y : Q) : bool := Qltb y x.

(** [a / b] with a computed divisor. *)
Definition pydiv (a b : Q) : result Q :=
  if Qeq_bool b 0 then Raise ZeroDivisionError else Ok (a / b).

(** Rounding half to even, to an integer. *)
Definition round_half_even (x : Q) : Z :=
  let f := Qfloor x in
  let r := x - inject_Z f in
  if Qltb r (1 # 2) then f
  else if Qltb (1 # 2) r then (f + 1)%Z
  else if Z.even f then f else (f + 1)%Z.

Fixpoint pow10 (ndigits : nat) : positive :=
  match ndigits with
  | O => 1%positive
  | S n => (10 * pow10 n)%positive
  end.

(** [round(x, ndigits)]: the nearest multiple of [10^-ndigits], ties to even. *)
Definition round (x : Q) (ndigits : nat) : Q :=
  Qred (round_half_even (x * inject_Z (Zpos (pow10 ndigits))) # pow10 ndigits).

(** [int(x)]: truncation toward zero. *)
Definition int (x : Q) : Z := Z.quot (Qnum x) (Zpos (Qden x)).

(** [min(a, b)] returns [a] unless [b < a]. *)
Definition min (a b : Q) : Q := if Qltb b a then b else a.

(** [sum(xs)]: a left fold from 0. *)
Definition sum (xs : list Q) : Q := fold_left Qplus xs 0.

(** [str(n)] of an integer. *)
Definition str (n : Z) : string := NilZero.string_of_int (Z.to_int n).

Fixpoint zfill (width : nat) (s : string) : string :=
  match width with
  | O => s
  | S w => if (String.length s <=? w)%nat then zfill w (String "0" s) else s
  end.

(** [f'{x:.Nf}']: fixed-point formatting with [ndigits] decimals. *)
Definition format_f (ndigits : nat) (x : Q) : string :=
  let m := round_half_even (Qabs x * inject_Z (Zpos (pow10 ndigits))) in
  let ip := (m / Zpos (pow10 ndigits))%Z in
  let fp := (m mod Zpos (pow10 ndigits))%Z in
  ((if Qltb x 0 then "-" else "") ++ str ip ++
   match ndigits with
   | O => ""
   | S _ => "." ++ zfill ndigits (str fp)
   end)%string.

(** [list.sort(key=...)]: stable, ascending in the key, using only [<] on
    keys; each element goes behind the elements that are not greater. *)
Section Sort.
Context {A K : Type} (lt : K -> K -> bool) (key : A -> K).

Fixpoint insort (x : A) (l : list A) : list A :=
  match l with
  | [] => [x]
  | y :: l' => if lt (key x) (key y) then x :: l else y :: insort x l'
  end.

Definition list_sort (l : list A) : list A :=
  fold_left (fun acc x => insort x acc) l [].

(** [sorted(l, key=..., reverse=True)]: reverse, sort, reverse. *)
Definition sorted_reverse (l : list A) : list A :=
  rev (list_sort (rev l)).
End Sort.

(** A dict with string keys, in insertion order. *)
Definition dict (V : Type) : Type := list (string * V).

Fixpoint dict_get {V : Type} (d : dict V) (k : string) : option V :=
  match d with
  | [] => None
  | (k', v) :: d' => if String.eqb k' k then Some v else dict_get d' k
  end.

(** [d[k]] *)
Definition getitem {V : Type} (d : dict V) (k : string) : result V :=
  match dict_get d k with
  | Some v => Ok v
  | None => Raise (KeyError k)
  end.

(** [d[k] = v]: an existing key keeps its place. *)
Fixpoint dict_set {V : Type} (d : dict V) (k : string) (v : V) : dict V :=
  match d with
  | [] => [(k, v)]
  | (k', v') :: d' =>
      if String.eqb k' k then (k', v) :: d' else (k', v') :: dict_set d' k v
  end.

(** [d.update(e)] *)
Definition dict_update {V : Type} (d e : dict V) : dict V :=
  fold_left (fun acc kv => dict_set acc (fst kv) (snd kv)) e d.

Definition values {V : Type} (d : dict V) : list V := map snd d.
Definition keys {V : Type} (d : dict V) : list string := map fst d.

(** ** Constant tables *)

(** Emission Factors (tCO2e per unit) *)
Module FACTORS.
Definition diesel : Q := 0.00268.
Definition petrol : Q := 0.00231.
Definition natural_gas : Q := 0.00202.
Definition coal : Q := 2.86.
Definition lpg : Q := 0.00151.
Definition electricity : Q := 0.00071.
Definition refrigerant_r22 : Q := 1.810.
Definition refrigerant_r410a : Q := 2.088.
Definition refrigerant_r134a : Q := 1.430.
Definition steel : Q := 1.85.
Definition cement : Q := 0.90.
Definition aluminum : Q := 12.7.
Definition plastic : Q := 2.70.
Definition paper : Q := 0.94.
Definition glass : Q := 0.85.
Definition logistics_truck : Q := 0.00012.
Definition logistics_ship : Q := 0.00004.
Definition logistics_air : Q := 0.00060.
Definition waste_landfill : Q := 0.50.
Definition waste_recycled : Q := 0.10.
End FACTORS.

(** Energy Costs (INR per unit) *)
Module ENERGY_COSTS.
Definition electricity : Q := 8.5.
Definition diesel : Q := 95.
Definition petrol : Q := 105.
Definition natural_gas : Q := 45.
Definition coal : Q := 8000.
Definition lpg : Q := 85.
End ENERGY_COSTS.

(** INR per tCO2e *)
Definition CARBON_PRICE : Q := 2500.

(** ** Input coercion *)

Section Coercion.
(** The builtin [float] on a form string: [Some x] for a numeral of value
    [x], [None] where it raises ValueError. *)
Variable float : string -> option Q.

(** Safely convert to float, handling empty strings and None.  The
    argument is what [request.form.get] returned. *)
Definition safe_float (value : option string) (default : Q) : Q :=
  match value with
  | None => default
  | Some s =>
      if String.eqb s "" then default
      else match float s with
           | Some x => x
           | None => default
           end
  end.
End Coercion.

(** The activity data of one request: the dict [data] of [index], whose keys
    are fixed by the literal that builds it. *)
Record ActivityInput : Type := {
  diesel : Q;
  petrol : Q;
  natural_gas : Q;
  coal : Q;
  lpg : Q;
  electricity : Q;
  renewable : Q;
  refrigerant_r22 : Q;
  refrigerant_r410a : Q;
  refrigerant_r134a : Q;
  steel : Q;
  cement : Q;
  aluminum : Q;
  plastic : Q;
  paper : Q;
  glass : Q;
  logistics_truck : Q;
  logistics_ship : Q;
  logistics_air : Q;
  waste_landfill : Q;
  waste_recycled : Q;
  production : Q
}.

(** A scenario dict.  The key [is_combined] exists on the combined scenario
    only. *)
Record Scenario : Type := {
  name : string;
  investment : Q;
  annual_savings : Q;
  carbon_reduction : Q;
  payback_years : Q;
  roi_percent : Q;
  priority : string;
  is_combined : option bool;
  description : string
}.

(** [x.get('is_combined', default)] *)
Definition get_is_combined (x : Scenario) (default : bool) : bool :=
  match is_combined x with
  | Some b => b
  | None => default
  end.

(** ** Scenario 1: Solar PV - based on electricity consumption *)

Definition solar_offset_pct : Z := 40.
Definition solar_kwh (data : ActivityInput) : Q :=
  electricity data * (inject_Z solar_offset_pct / 100).
Definition solar_emission_reduction (data : ActivityInput) : Q :=
  solar_kwh data * FACTORS.electricity.
Definition solar_energy_savings (data : ActivityInput) : Q :=
  solar_kwh data * ENERGY_COSTS.electricity.
Definition system_size_kw (data : ActivityInput) : Q := solar_kwh data / 150.
Definition solar_investment (data : ActivityInput) : Q :=
  system_size_kw data * 60000.

Definition scenario_solar (data : ActivityInput) (scenarios : list Scenario)
  : result (list Scenario) :=
  if Qgtb (electricity data) 0 then
    solar_roi <- (if Qgtb (solar_investment data) 0
                  then pydiv (solar_energy_savings data * 100) (solar_investment data)
                  else Ok 0) ;;
    payback <- (if Qgtb (solar_energy_savings data) 0
                then q <- pydiv (solar_investment data) (solar_energy_savings data) ;;
                     Ok (round q 1)
                else Ok 0) ;;
    Ok (scenarios ++ [
      {| name := "Rooftop Solar (" ++ str solar_offset_pct ++ "% offset)";
         investment := round (solar_investment data) 2;
         annual_savings := round (solar_energy_savings data) 2;
         carbon_reduction := round (solar_emission_reduction data) 2;
         payback_years := payback;
         roi_percent := round solar_roi 1;
         priority := if Qgtb solar_roi 15 then "High" else "Medium";
         is_combined := None;
         description := "Install " ++ format_f 1 (system_size_kw data) ++
                        " kW solar PV to offset " ++ format_f 0 (solar_kwh data) ++
                        " kWh/month" |} ])
  else Ok scenarios.

(** ** Scenario 2: EV Fleet Transition - based on diesel/petrol usage *)

(** In the program [int] raises on inf and nan, and the division by an
    investment that is an integer beyond the binary64 range raises
    OverflowError.  These cases need quantities above 1e305 or the form
    values inf and nan; rational quantities do not reach them. *)

Definition vehicle_fuel_cost (data : ActivityInput) : Q :=
  (diesel data * ENERGY_COSTS.diesel) + (petrol data * ENERGY_COSTS.petrol).
Definition ev_transition_pct : Z := 30.
Definition ev_fuel_savings (data : ActivityInput) : Q :=
  vehicle_fuel_cost data * inject_Z ev_transition_pct / 100 * 0.6.
Definition ev_emission_reduction (data : ActivityInput) : Q :=
  ((diesel data * FACTORS.diesel) + (petrol data * FACTORS.petrol))
  * inject_Z ev_transition_pct / 100.
Definition vehicles_to_replace (data : ActivityInput) : Z :=
  Z.max 1 (int ((diesel data + petrol data) / 1000)).
Definition ev_investment (data : ActivityInput) : Q :=
  inject_Z (vehicles_to_replace data * 1500000).

Definition scenario_ev (data : ActivityInput) (scenarios : list Scenario)
  : result (list Scenario) :=
  if Qgtb (diesel data) 1000 || Qgtb (petrol data) 500 then
    ev_roi <- (if Qgtb (ev_investment data) 0
               then pydiv (ev_fuel_savings data * 100) (ev_investment data)
               else Ok 0) ;;
    payback <- (if Qgtb (ev_fuel_savings data) 0
                then q <- pydiv (ev_investment data) (ev_fuel_savings data) ;;
                     Ok (round q 1)
                else Ok 0) ;;
    Ok (scenarios ++ [
      {| name := "EV Fleet (" ++ str ev_transition_pct ++ "% transition)";
         investment := round (ev_investment data) 2;
         annual_savings := round (ev_fuel_savings data) 2;
         carbon_reduction := round (ev_emission_reduction data) 2;
         payback_years := payback;
         roi_percent := round ev_roi 1;
         priority := if Qgtb ev_roi 12 then "High" else "Medium";
         is_combined := None;
         description := "Replace " ++ str (vehicles_to_replace data) ++
                        " vehicles with EVs, save " ++
                        format_f 0 (ev_fuel_savings data) ++ " INR/year" |} ])
  else Ok scenarios.

(** ** Scenario 3: Energy Efficiency (LED + Smart HVAC) - based on electricity *)

Definition efficiency_savings_pct : Z := 15.
Definition kwh_saved (data : ActivityInput) : Q :=
  electricity data * inject_Z efficiency_savings_pct / 100.
Definition efficiency_emission_reduction (data : ActivityInput) : Q :=
  kwh_saved data * FACTORS.electricity.
Definition efficiency_cost_savings (data : ActivityInput) : Q :=
  kwh_saved data * ENERGY_COSTS.electricity.
Definition efficiency_investment (data : ActivityInput) : Q :=
  electricity data * 0.5.

Definition scenario_efficiency (data : ActivityInput) (scenarios : list Scenario)
  : result (list Scenario) :=
  if Qgtb (electricity data) 0 then
    efficiency_roi <- (if Qgtb (efficiency_investment data) 0
                       then pydiv (efficiency_cost_savings data * 100)
                                  (efficiency_investment data)
                       else Ok 0) ;;
    payback <- (if Qgtb (efficiency_cost_savings data) 0
                then q <- pydiv (efficiency_investment data)
                                (efficiency_cost_savings data) ;;
                     Ok (round q 1)
                else Ok 0) ;;
    Ok (scenarios ++ [
      {| name := "Energy Efficiency (" ++ str efficiency_savings_pct ++ "% reduction)";
         investment := round (efficiency_investment data) 2;
         annual_savings := round (efficiency_cost_savings data) 2;
         carbon_reduction := round (efficiency_emission_reduction data) 2;
         payback_years := payback;
         roi_percent := round efficiency_roi 1;
         priority := if Qgtb efficiency_roi 20 then "High" else "Medium";
         is_combined := None;
         description := "LED lighting, smart HVAC to save " ++
                        format_f 0 (kwh_saved data) ++ " kWh/month" |} ])
  else Ok scenarios.

(** ** Scenario 4: Waste Reduction & Recycling - based on waste data *)

Definition waste_reduction_pct : Z := 50.
Definition waste_diverted (data : ActivityInput) : Q :=
  waste_landfill data * inject_Z waste_reduction_pct / 100.
Definition waste_emission_reduction (data : ActivityInput) : Q :=
  waste_diverted data * (FACTORS.waste_landfill - FACTORS.waste_recycled).
Definition waste_cost_savings (data : ActivityInput) : Q :=
  waste_diverted data * 2000.
Definition waste_investment (data : ActivityInput) : Q :=
  300000 + (waste_landfill data * 10000).

Definition scenario_waste (data : ActivityInput) (scenarios : list Scenario)
  : result (list Scenario) :=
  if Qgtb (waste_landfill data) 0 then
    waste_roi <- (if Qgtb (waste_investment data) 0
                  then pydiv (waste_cost_savings data * 100) (waste_investment data)
                  else Ok 0) ;;
    payback <- (if Qgtb (waste_cost_savings data) 0
                then q <- pydiv (waste_investment data) (waste_cost_savings data) ;;
                     Ok (round q 1)
                else Ok 0) ;;
    Ok (scenarios ++ [
      {| name := "Waste Diversion (" ++ str waste_reduction_pct ++ "% to recycling)";
         investment := round (waste_investment data) 2;
         annual_savings := round (waste_cost_savings data) 2;
         carbon_reduction := round (waste_emission_reduction data) 2;
         payback_years := payback;
         roi_percent := round waste_roi 1;
         priority := "Medium";
         is_combined := None;
         description := "Divert " ++ format_f 1 (waste_diverted data) ++
                        " tonnes from landfill to recycling" |} ])
  else Ok scenarios.

(** ** Scenario 5: Renewable Energy Procurement - based on current renewable % *)

Definition target_renewable (data : ActivityInput) : Q :=
  min 50 (renewable data + 30).
Definition additional_renewable_pct (data : ActivityInput) : Q :=
  target_renewable data - renewable data.
Definition additional_renewable_kwh (data : ActivityInput) : Q :=
  electricity data * additional_renewable_pct data / 100.
Definition renewable_emission_reduction (data : ActivityInput) : Q :=
  additional_renewable_kwh data * FACTORS.electricity.
Definition green_premium (data : ActivityInput) : Q :=
  additional_renewable_kwh data * 12 * 1.5.
Definition renewable_carbon_savings (data : ActivityInput) : Q :=
  renewable_emission_reduction data * CARBON_PRICE.
Definition net_renewable_savings (data : ActivityInput) : Q :=
  renewable_carbon_savings data - green_premium data.
Definition renewable_investment : Q := 0.

Definition scenario_green (data : ActivityInput) (scenarios : list Scenario)
  : result (list Scenario) :=
  if Qltb (renewable data) 50 then
    Ok (scenarios ++ [
      {| name := "Green Energy Procurement (" ++
                 format_f 0 (target_renewable data) ++ "% renewable)";
         investment := 0;
         annual_savings := round (net_renewable_savings data) 2;
         carbon_reduction := round (renewable_emission_reduction data) 2;
         payback_years := 0;
         roi_percent := if Qgtb (net_renewable_savings data) 0 then 999 else 0;
         priority := if Qgtb (net_renewable_savings data) 0 then "High" else "Low";
         is_combined := None;
         description := "Switch to green tariffs, increase renewable from " ++
                        format_f 0 (renewable data) ++ "% to " ++
                        format_f 0 (target_renewable data) ++ "%" |} ])
  else Ok scenarios.

(** ** Scenario 6: Material Efficiency - based on raw materials *)

Definition material_efficiency_pct : Z := 10.
Definition material_emission_reduction (raw_materials : Q) : Q :=
  raw_materials * inject_Z material_efficiency_pct / 100.
Definition material_cost_savings (raw_materials : Q) : Q :=
  material_emission_reduction raw_materials * 50000.
Definition material_investment : Q := 500000.

Definition scenario_material (scope3 : dict Q) (scenarios : list Scenario)
  : result (list Scenario) :=
  raw_materials <- getitem scope3 "Raw Materials" ;;
  if Qgtb raw_materials 10 then
    material_roi <- (if Qgtb material_investment 0
                     then pydiv (material_cost_savings raw_materials * 100)
                                material_investment
                     else Ok 0) ;;
    payback <- (if Qgtb (material_cost_savings raw_materials) 0
                then q <- pydiv material_investment
                                (material_cost_savings raw_materials) ;;
                     Ok (round q 1)
                else Ok 0) ;;
    Ok (scenarios ++ [
      {| name := "Material Efficiency (" ++ str material_efficiency_pct ++ "% reduction)";
         investment := round material_investment 2;
         annual_savings := round (material_cost_savings raw_materials) 2;
         carbon_reduction := round (material_emission_reduction raw_materials) 2;
         payback_years := payback;
         roi_percent := round material_roi 1;
         priority := "Medium";
         is_combined := None;
         description := "Optimize material use, reduce waste in production processes" |} ])
  else Ok scenarios.

(** ** Combined scenario and final order *)

Definition total_investment (scenarios : list Scenario) : Q :=
  sum (map investment (filter (fun s => Qgtb (investment s) 0) scenarios)).
Definition total_savings (scenarios : list Scenario) : Q :=
  sum (map annual_savings scenarios).
Definition total_carbon_reduction (scenarios : list Scenario) : Q :=
  sum (map carbon_reduction scenarios).

Definition scenario_combined (scenarios : list Scenario) : result (list Scenario) :=
  payback <- (if Qgtb (total_savings scenarios) 0
              then q <- pydiv (total_investment scenarios) (total_savings scenarios) ;;
                   Ok (round q 1)
              else Ok 0) ;;
  roi <- (if Qgtb (total_investment scenarios) 0
          then q <- pydiv (total_savings scenarios * 100) (total_investment scenarios) ;;
               Ok (round q 1)
          else Ok 0) ;;
  Ok (scenarios ++ [
    {| name := "Combined Optimization (All Measures)";
       investment := round (total_investment scenarios) 2;
       annual_savings := round (total_savings scenarios) 2;
       carbon_reduction := round (total_carbon_reduction scenarios) 2;
       payback_years := payback;
       roi_percent := roi;
       priority := "Recommended";
       is_combined := Some true;
       description := "Implement all measures for maximum impact" |} ]).

(** The sort key [(x.get('is_combined', False), -x['roi_percent'])] and the
    order of such tuples: the first components decide unless they are equal. *)
Definition sort_key (x : Scenario) : bool * Q :=
  (get_is_combined x false, - roi_percent x).

Definition key_lt (a b : bool * Q) : bool :=
  if Bool.eqb (fst a) (fst b)
  then (if Qeq_bool (snd a) (snd b) then false else Qltb (snd a) (snd b))
  else negb (fst a) && fst b.

(** Calculate reduction scenarios based on actual input data *)
Definition calculate_scenarios (data : ActivityInput)
    (scope1 scope2 scope3 : dict Q) (total_emissions : Q)
  : result (list Scenario) :=
  let scenarios := [] in
  scenarios <- scenario_solar data scenarios ;;
  scenarios <- scenario_ev data scenarios ;;
  scenarios <- scenario_efficiency data scenarios ;;
  scenarios <- scenario_waste data scenarios ;;
  scenarios <- scenario_green data scenarios ;;
  scenarios <- scenario_material scope3 scenarios ;;
  scenarios <- scenario_combined scenarios ;;
  (* Sort by ROI (highest first), but keep combined at end *)
  Ok (list_sort key_lt sort_key scenarios).

(** ** The request handler *)

(** Scope 1 *)
Definition scope1 (data : ActivityInput) : dict Q :=
  [ ("Diesel", diesel data * FACTORS.diesel);
    ("Petrol", petrol data * FACTORS.petrol);
    ("Natural Gas", natural_gas data * FACTORS.natural_gas);
    ("Coal", coal data * FACTORS.coal);
    ("LPG", lpg data * FACTORS.lpg);
    ("Refrigerants", refrigerant_r22 data * FACTORS.refrigerant_r22 +
                     refrigerant_r410a data * FACTORS.refrigerant_r410a +
                     refrigerant_r134a data * FACTORS.refrigerant_r134a) ]%string.
Definition scope1_total (data : ActivityInput) : Q := sum (values (scope1 data)).

(** Scope 2 *)
Definition grid_electricity (data : ActivityInput) : Q :=
  electricity data * (1 - renewable data / 100).
Definition scope2 (data : ActivityInput) : dict Q :=
  [ ("Grid Electricity", grid_electricity data * FACTORS.electricity);
    ("Renewable", 0) ]%string.
Definition scope2_total (data : ActivityInput) : result Q :=
  getitem (scope2 data) "Grid Electricity".

(** Scope 3 *)
Definition scope3 (data : ActivityInput) : dict Q :=
  [ ("Raw Materials", steel data * FACTORS.steel + cement data * FACTORS.cement +
                      aluminum data * FACTORS.aluminum + plastic data * FACTORS.plastic +
                      paper data * FACTORS.paper + glass data * FACTORS.glass);
    ("Logistics", logistics_truck data * FACTORS.logistics_truck +
                  logistics_ship data * FACTORS.logistics_ship +
                  logistics_air data * FACTORS.logistics_air);
    ("Waste", waste_landfill data * FACTORS.waste_landfill +
              waste_recycled data * FACTORS.waste_recycled) ]%string.
Definition scope3_total (data : ActivityInput) : Q := sum (values (scope3 data)).

(** [total = scope1_total + scope2_total + scope3_total] *)
Definition total (data : ActivityInput) (scope2_total : Q) : Q :=
  scope1_total data + scope2_total + scope3_total data.

(** [{k: round(v, 2) for k, v in d.items() if v > 0}] *)
Definition positive_rounded (d : dict Q) : dict Q :=
  fold_left (fun acc kv => dict_set acc (fst kv) (round (snd kv) 2))
            (filter (fun kv => Qgtb (snd kv) 0) d) [].

(** By source for charts *)
Definition by_source (data : ActivityInput) : dict Q :=
  let by_source := [] in
  let by_source := dict_update by_source (positive_rounded (scope1 data)) in
  let by_source := dict_update by_source (positive_rounded (scope2 data)) in
  let by_source := dict_update by_source (positive_rounded (scope3 data)) in
  by_source.

(** [{k: round(v * CARBON_PRICE, 2) for k, v in by_source.items()}] *)
Definition carbon_costs_by_source (by_source : dict Q) : dict Q :=
  fold_left (fun acc kv => dict_set acc (fst kv) (round (snd kv * CARBON_PRICE) 2))
            by_source [].

Module Hotspot.
Record t : Type := { source : string; emission : Q; percent : Q }.
End Hotspot.

(** [[f(x) for x in l]] where [f] can raise: the first failure ends it. *)
Fixpoint list_comprehension {A B : Type} (f : A -> result B) (l : list A)
  : result (list B) :=
  match l with
  | [] => Ok []
  | x :: l' => y <- f x ;; ys <- list_comprehension f l' ;; Ok (y :: ys)
  end.

(** Hotspots *)
Definition hotspots (by_source : dict Q) (total : Q) : result (list Hotspot.t) :=
  entries <- list_comprehension
               (fun kv => q <- pydiv (snd kv) total ;;
                          Ok {| Hotspot.source := fst kv;
                                Hotspot.emission := snd kv;
                                Hotspot.percent := q * 100 |})
               by_source ;;
  Ok (firstn 5 (sorted_reverse Qltb Hotspot.emission entries)).

Module Result.
Record t : Type := {
  scope1 : Q;
  scope2 : Q;
  scope3 : Q;
  total : Q;
  intensity : Q;
  renewable : Q;
  production : Q;
  by_scope : list Q;
  by_source : dict Q;
  carbon_costs_by_source : dict Q;
  carbon_cost : Q;
  scenarios : list Scenario;
  ten_year_savings : Q;
  ten_year_reduction : Q;
  hotspots : list Hotspot.t
}.
End Result.

(** [[s for s in scenarios if s.get('is_combined')][0]] *)
Definition combined_scenario (scenarios : list Scenario) : result Scenario :=
  match filter (fun s => match is_combined s with Some b => b | None => false end)
               scenarios with
  | s :: _ => Ok s
  | [] => Raise IndexError
  end.

(** The computation of [index] once [data] is built. *)
Definition calculate (data : ActivityInput) : result Result.t :=
  let scope1 := scope1 data in
  let scope1_total := scope1_total data in
  let scope2 := scope2 data in
  scope2_total <- scope2_total data ;;
  let scope3 := scope3 data in
  let scope3_total := scope3_total data in
  let total := total data scope2_total in
  let by_source := by_source data in
  let carbon_costs_by_source := carbon_costs_by_source by_source in
  (* Calculate dynamic scenarios based on input data *)
  scenarios <- calculate_scenarios data scope1 scope2 scope3 total ;;
  (* Intensity *)
  intensity <- (if Qgtb (production data) 0
                then pydiv total (production data) else Ok 0) ;;
  (* Cost analysis *)
  let carbon_cost := total * CARBON_PRICE in
  (* Calculate 10-year projection *)
  combined_scenario <- combined_scenario scenarios ;;
  let ten_year_savings := annual_savings combined_scenario * 10 in
  let ten_year_reduction := carbon_reduction combined_scenario * 10 in
  hotspots <- hotspots by_source total ;;
  Ok {| Result.scope1 := round scope1_total 2;
        Result.scope2 := round scope2_total 2;
        Result.scope3 := round scope3_total 2;
        Result.total := round total 2;
        Result.intensity := round intensity 4;
        Result.renewable := renewable data;
        Result.production := production data;
        Result.by_scope := [round scope1_total 2; round scope2_total 2;
                            round scope3_total 2];
        Result.by_source := by_source;
        Result.carbon_costs_by_source := carbon_costs_by_source;
        Result.carbon_cost := round carbon_cost 2;
        Result.scenarios := scenarios;
        Result.ten_year_savings := round ten_year_savings 2;
        Result.ten_year_reduction := round ten_year_reduction 2;
        Result.hotspots := hotspots |}.

Record Request : Type := {
  method : string;
  form : dict string      (* [request.form.get(k)] is [dict_get form k] *)
}.

Section Index.
Variable float : string -> option Q.

(** Get all inputs with safe conversion *)
Definition read_form (form : dict string) : ActivityInput :=
  {| diesel := safe_float float (dict_get form "diesel") 0;
     petrol := safe_float float (dict_get form "petrol") 0;
     natural_gas := safe_float float (dict_get form "natural_gas") 0;
     coal := safe_float float (dict_get form "coal") 0;
     lpg := safe_float float (dict_get form "lpg") 0;
     electricity := safe_float float (dict_get form "electricity") 0;
     renewable := safe_float float (dict_get form "renewable") 0;
     refrigerant_r22 := safe_float float (dict_get form "refrigerant_r22") 0;
     refrigerant_r410a := safe_float float (dict_get form "refrigerant_r410a") 0;
     refrigerant_r134a := safe_float float (dict_get form "refrigerant_r134a") 0;
     steel := safe_float float (dict_get form "steel") 0;
     cement := safe_float float (dict_get form "cement") 0;
     aluminum := safe_float float (dict_get form "aluminum") 0;
     plastic := safe_float float (dict_get form "plastic") 0;
     paper := safe_float float (dict_get form "paper") 0;
     glass := safe_float float (dict_get form "glass") 0;
     logistics_truck := safe_float float (dict_get form "logistics_truck") 0;
     logistics_ship := safe_float float (dict_get form "logistics_ship") 0;
     logistics_air := safe_float float (dict_get form "logistics_air") 0;
     waste_landfill := safe_float float (dict_get form "waste_landfill") 0;
     waste_recycled := safe_float float (dict_get form "waste_recycled") 0;
     production := safe_float float (dict_get form "production") 1 |}.

(** [index]: the value of [result] handed to the template. *)
Definition index (request : Request) : result (option Result.t) :=
  if String.eqb (method request) "POST" then
    let data := read_form (form request) in
    result <- calculate data ;;
    Ok (Some result)
  else Ok None.
End Index.

(** ** The builtin [float] on plain decimal numerals

    Blanks, a sign, digits with an optional point, an optional exponent.
    This instance runs the examples; the theorems on [safe_float] and [index]
    hold for any [float].  The spellings of inf and nan, the digit
    separator [_] and numerals outside the binary64 range (which the
    builtin reads as inf or as 0.0) are not covered. *)

Definition is_digit (c : ascii) : bool :=
  let n := nat_of_ascii c in ((48 <=? n) && (n <=? 57))%nat.

Definition is_space (c : ascii) : bool :=
  let n := nat_of_ascii c in ((n =? 32) || ((9 <=? n) && (n <=? 13)))%nat.

Fixpoint lstrip (s : string) : string :=
  match s with
  | String c s' => if is_space c then lstrip s' else s
  | EmptyString => s
  end.

(** Reads a run of digits: its value after [acc], its length, the rest. *)
Fixpoint read_digits (s : string) (acc : N) (len : nat) : N * nat * string :=
  match s with
  | String c s' =>
      if is_digit c
      then read_digits s' (acc * 10 + N.of_nat (nat_of_ascii c - 48)) (S len)
      else (acc, len, s)
  | EmptyString => (acc, len, s)
  end.

Definition read_sign (s : string) : bool * string :=
  match s with
  | String "-" s' => (true, s')
  | String "+" s' => (false, s')
  | _ => (false, s)
  end.

Definition read_exponent (s : string) : option (Z * string) :=
  match s with
  | String c s' =>
      if (Ascii.eqb c "e" || Ascii.eqb c "E")%bool then
        let '(neg, s1) := read_sign s' in
        let '(e, len, rest) := read_digits s1 0%N 0%nat in
        match len with
        | O => None
        | S _ => Some (if neg then (- Z.of_N e)%Z else Z.of_N e, rest)
        end
      else Some (0%Z, s)
  | EmptyString => Some (0%Z, s)
  end.

Definition float_decimal (s : string) : option Q :=
  let '(neg, s1) := read_sign (lstrip s) in
  let '(ip, n1, s2) := read_digits s1 0%N 0%nat in
  let '(m, n2, s3) :=
    match s2 with
    | String "." s' => read_digits s' ip 0%nat
    | _ => (ip, 0%nat, s2)
    end in
  match (n1 + n2)%nat with
  | O => None
  | S _ =>
      match read_exponent s3 with
      | None => None
      | Some (e, rest) =>
          match lstrip rest with
          | EmptyString =>
              let x := (Z.of_N m # pow10 n2) * Qpower 10 e in
              Some (Qred (if neg then - x else x))
          | String _ _ => None
          end
      end
  end.

(** ** The Rooftop Solar block over binary64 numbers

    The expressions of Scenario 1 once more, over Rocq's primitive floats
    (IEEE 754 binary64, the numbers the program runs on).  Here a product
    that leaves the range becomes inf, which the rational model above cannot
    show.  The name and the description of the dict are left out. *)
Module Binary64.
Import PrimFloat.
Local Open Scope float_scope.
Local Set Warnings "-inexact-float".

Module FACTORS.
Definition electricity : float := 0.00071.
End FACTORS.

Module ENERGY_COSTS.
Definition electricity : float := 8.5.
End ENERGY_COSTS.

(** The rational value of a finite float. *)
Definition exact (x : float) : Q :=
  match FloatOps.Prim2SF x with
  | SpecFloat.S754_finite s m e =>
      ((if s then - (1) else 1) * inject_Z (Zpos m) * Qpower 2 e)%Q
  | _ => 0%Q
  end.

(** The float of an integer below 2^53 in size, where it is exact. *)
Definition of_Z (n : Z) : float :=
  let a := of_uint63 (Uint63.of_Z (Z.abs n)) in
  if (n <? 0)%Z then - a else a.

(** [round(x, ndigits)] for [ndigits] of 1, 2 or 4: nans and infinities
    round to themselves; a finite [x] goes to the float nearest to the
    decimal nearest to its exact value, ties to even.  Above 2^53 units of
    the last decimal that float is [x] itself. *)
Definition round (x : float) (ndigits : nat) : float :=
  if is_finite x then
    let n := round_half_even (exact x * inject_Z (Zpos (pow10 ndigits)))%Q in
    if (n =? 0)%Z then x * 0
    else if (Z.abs n <? 2 ^ 53)%Z then of_Z n / of_Z (Zpos (pow10 ndigits))
    else x
  else x.

(** [a / b] on floats: a zero divisor raises, an overflow gives inf. *)
Definition pydiv (a b : float) : result float :=
  if b =? 0 then Raise ZeroDivisionError else Ok (a / b).

Record Row : Type := {
  investment : float;
  annual_savings : float;
  carbon_reduction : float;
  payback_years : float;
  roi_percent : float;
  priority : string
}.

(** Scenario 1 for the given [data['electricity']]: [None] when the block
    is skipped. *)
Definition scenario_solar (electricity : float) : result (option Row) :=
  if 0 <? electricity then
    let solar_kwh := electricity * (40 / 100) in
    let solar_emission_reduction := solar_kwh * FACTORS.electricity in
    let solar_energy_savings := solar_kwh * ENERGY_COSTS.electricity in
    let system_size_kw := solar_kwh / 150 in
    let solar_investment := system_size_kw * 60000 in
    solar_roi <- (if 0 <? solar_investment
                  then pydiv (solar_energy_savings * 100) solar_investment
                  else Ok 0) ;;
    payback <- (if 0 <? solar_energy_savings
                then q <- pydiv solar_investment solar_energy_savings ;;
                     Ok (round q 1)
                else Ok 0) ;;
    Ok (Some {| investment := round solar_investment 2;
                annual_savings := round solar_energy_savings 2;
                carbon_reduction := round solar_emission_reduction 2;
                payback_years := payback;
                roi_percent := round solar_roi 1;
                priority := if 15 <? solar_roi then "High" else "Medium" |})
  else Ok None.

(** An electricity figure whose savings times 100 leave the range. *)
Definition huge_electricity : float := 1e306.
End Binary64.

(** * Specification vocabulary *)

(** [(a / b) if b > 0 else 0] never raises. *)
Definition guarded (a b : Q) : Q := if Qgtb b 0 then a / b else 0.

(** [round(a / b, n) if b > 0 else 0] never raises. *)
Definition guarded_round (a b : Q) (n : nat) : Q :=
  if Qgtb b 0 then round (a / b) n else 0.

(** A value with at most [n] decimals. *)
Definition decimals (n : nat) (x : Q) : Prop := exists z : Z, x == z # pow10 n.

(** The scenario dicts in closed form: what each block of
    [calculate_scenarios] appends when its condition holds. *)

Definition solar_roi (data : ActivityInput) : Q :=
  guarded (solar_energy_savings data * 100) (solar_investment data).

Definition solar_row (data : ActivityInput) : Scenario :=
  {| name := "Rooftop Solar (" ++ str solar_offset_pct ++ "% offset)";
     investment := round (solar_investment data) 2;
     annual_savings := round (solar_energy_savings data) 2;
     carbon_reduction := round (solar_emission_reduction data) 2;
     payback_years := guarded_round (solar_investment data) (solar_energy_savings data) 1;
     roi_percent := round (solar_roi data) 1;
     priority := if Qgtb (solar_roi data) 15 then "High" else "Medium";
     is_combined := None;
     description := "Install " ++ format_f 1 (system_size_kw data) ++
                    " kW solar PV to offset " ++ format_f 0 (solar_kwh data) ++
                    " kWh/month" |}.

Definition ev_roi (data : ActivityInput) : Q :=
  guarded (ev_fuel_savings data * 100) (ev_investment data).

Definition ev_row (data : ActivityInput) : Scenario :=
  {| name := "EV Fleet (" ++ str ev_transition_pct ++ "% transition)";
     investment := round (ev_investment data) 2;
     annual_savings := round (ev_fuel_savings data) 2;
     carbon_reduction := round (ev_emission_reduction data) 2;
     payback_years := guarded_round (ev_investment data) (ev_fuel_savings data) 1;
     roi_percent := round (ev_roi data) 1;
     priority := if Qgtb (ev_roi data) 12 then "High" else "Medium";
     is_combined := None;
     description := "Replace " ++ str (vehicles_to_replace data) ++
                    " vehicles with EVs, save " ++
                    format_f 0 (ev_fuel_savings data) ++ " INR/year" |}.

Definition efficiency_roi (data : ActivityInput) : Q :=
  guarded (efficiency_cost_savings data * 100) (efficiency_investment data).

Definition efficiency_row (data : ActivityInput) : Scenario :=
  {| name := "Energy Efficiency (" ++ str efficiency_savings_pct ++ "% reduction)";
     investment := round (efficiency_investment data) 2;
     annual_savings := round (efficiency_cost_savings data) 2;
     carbon_reduction := round (efficiency_emission_reduction data) 2;
     payback_years :=
       guarded_round (efficiency_investment data) (efficiency_cost_savings data) 1;
     roi_percent := round (efficiency_roi data) 1;
     priority := if Qgtb (efficiency_roi data) 20 then "High" else "Medium";
     is_combined := None;
     description := "LED lighting, smart HVAC to save " ++
                    format_f 0 (kwh_saved data) ++ " kWh/month" |}.

Definition waste_roi (data : ActivityInput) : Q :=
  guarded (waste_cost_savings data * 100) (waste_investment data).

Definition waste_row (data : ActivityInput) : Scenario :=
  {| name := "Waste Diversion (" ++ str waste_reduction_pct ++ "% to recycling)";
     investment := round (waste_investment data) 2;
     annual_savings := round (waste_cost_savings data) 2;
     carbon_reduction := round (waste_emission_reduction data) 2;
     payback_years := guarded_round (waste_investment data) (waste_cost_savings data) 1;
     roi_percent := round (waste_roi data) 1;
     priority := "Medium";
     is_combined := None;
     description := "Divert " ++ format_f 1 (waste_diverted data) ++
                    " tonnes from landfill to recycling" |}.

Definition green_row (data : ActivityInput) : Scenario :=
  {| name := "Green Energy Procurement (" ++
             format_f 0 (target_renewable data) ++ "% renewable)";
     investment := 0;
     annual_savings := round (net_renewable_savings data) 2;
     carbon_reduction := round (renewable_emission_reduction data) 2;
     payback_years := 0;
     roi_percent := if Qgtb (net_renewable_savings data) 0 then 999 else 0;
     priority := if Qgtb (net_renewable_savings data) 0 then "High" else "Low";
     is_combined := None;
     description := "Switch to green tariffs, increase renewable from " ++
                    format_f 0 (renewable data) ++ "% to " ++
                    format_f 0 (target_renewable data) ++ "%" |}.

Definition material_roi (raw_materials : Q) : Q :=
  guarded (material_cost_savings raw_materials * 100) material_investment.

Definition material_row (raw_materials : Q) : Scenario :=
  {| name := "Material Efficiency (" ++ str material_efficiency_pct ++ "% reduction)";
     investment := round material_investment 2;
     annual_savings := round (material_cost_savings raw_materials) 2;
     carbon_reduction := round (material_emission_reduction raw_materials) 2;
     payback_years :=
       guarded_round material_investment (material_cost_savings raw_materials) 1;
     roi_percent := round (material_roi raw_materials) 1;
     priority := "Medium";
     is_combined := None;
     description := "Optimize material use, reduce waste in production processes" |}.

Definition combined_row (scenarios : list Scenario) : Scenario :=
  {| name := "Combined Optimization (All Measures)";
     investment := round (total_investment scenarios) 2;
     annual_savings := round (total_savings scenarios) 2;
     carbon_reduction := round (total_carbon_reduction scenarios) 2;
     payback_years :=
       guarded_round (total_investment scenarios) (total_savings scenarios) 1;
     roi_percent :=
       guarded_round (total_savings scenarios * 100) (total_investment scenarios) 1;
     priority := "Recommended";
     is_combined := Some true;
     description := "Implement all measures for maximum impact" |}.

Definition when (b : bool) (s : Scenario) : list Scenario := if b then [s] else [].

(** The six blocks in the order of the source, before the combined scenario
    and the sort. *)
Definition individual (data : ActivityInput) (raw_materials : Q) : list Scenario :=
  when (Qgtb (electricity data) 0) (solar_row data) ++
  when (Qgtb (diesel data) 1000 || Qgtb (petrol data) 500) (ev_row data) ++
  when (Qgtb (electricity data) 0) (efficiency_row data) ++
  when (Qgtb (waste_landfill data) 0) (waste_row data) ++
  when (Qltb (renewable data) 50) (green_row data) ++
  when (Qgtb raw_materials 10) (material_row raw_materials).

(** The value of [scope3['Raw Materials']] as [index] builds it. *)
Definition raw_materials (data : ActivityInput) : Q :=
  steel data * FACTORS.steel + cement data * FACTORS.cement +
  aluminum data * FACTORS.aluminum + plastic data * FACTORS.plastic +
  paper data * FACTORS.paper + glass data * FACTORS.glass.

(** [a] stands at an earlier position of [l] than [b]. *)
Definition appears_before {A : Type} (a b : A) (l : list A) : Prop :=
  exists l1 l2 l3, l = l1 ++ a :: l2 ++ b :: l3.

(** [x] may stand before [y] in a list sorted by [key]: the key of [y] is
    not smaller. *)
Definition precedes {A K : Type} (lt : K -> K -> bool) (key : A -> K) (x y : A) : Prop :=
  lt (key y) (key x) = false.


(** A scenario whose name starts with [title] is in the list. *)
Definition emitted (title : string) (l : list Scenario) : Prop :=
  exists s, In s l /\ String.prefix title (name s) = true.

(** All four figures of the scenario are zero. *)
Definition all_zero (s : Scenario) : Prop :=
  investment s == 0 /\ annual_savings s == 0 /\
  carbon_reduction s == 0 /\ roi_percent s == 0.



(** A POST request with the given form fields. *)
Definition post (fields : dict string) : Request :=
  {| method := "POST"; form := fields |}.



(** The payback and ROI rule of a scenario, from its figures before
    rounding: [inv] the investment, [sav] the annual savings.  [sentinel]
    marks Green Energy Procurement, whose ROI is the literal 999 when its
    net savings are positive. *)
Definition ratio_rule (sentinel : bool) (inv sav : Q) (s : Scenario) : Prop :=
  investment s == round inv 2 /\
  annual_savings s == round sav 2 /\
  payback_years s == (if Qgtb sav 0 then round (inv / sav) 1 else 0) /\
  roi_percent s == (if Qgtb inv 0 then round (sav * 100 / inv) 1
                    else if sentinel && Qgtb sav 0 then 999 else 0).

(** The figures before rounding of the six scenarios, by title. *)
Definition unrounded_figures (data : ActivityInput) : list (string * (Q * Q)) :=
  [ ("Rooftop Solar", (solar_investment data, solar_energy_savings data));
    ("EV Fleet", (ev_investment data, ev_fuel_savings data));
    ("Energy Efficiency", (efficiency_investment data, efficiency_cost_savings data));
    ("Waste Diversion", (waste_investment data, waste_cost_savings data));
    ("Green Energy Procurement", (renewable_investment, net_renewable_savings data));
    ("Material Efficiency",
     (material_investment, material_cost_savings (raw_materials data))) ]%string.

(** The rule read on the stored (rounded) fields, without rounding of the
    quotients. *)
Definition ratio_rule_on_fields (s : Scenario) : Prop :=
  (annual_savings s <= 0 -> payback_years s == 0) /\
  (0 < annual_savings s -> payback_years s == investment s / annual_savings s) /\
  (investment s <= 0 -> roi_percent s == 0 \/ roi_percent s == 999) /\
  (0 < investment s -> roi_percent s == annual_savings s * 100 / investment s).

(** One watt-hour of electricity and nothing else. *)
Definition tiny_input : ActivityInput :=
  read_form float_decimal [("electricity", "0.001")]%string.

(** The 22 fields of the input. *)
Definition fields (data : ActivityInput) : list Q :=
  [ diesel data; petrol data; natural_gas data; coal data; lpg data;
    electricity data; renewable data; refrigerant_r22 data;
    refrigerant_r410a data; refrigerant_r134a data; steel data; cement data;
    aluminum data; plastic data; paper data; glass data; logistics_truck data;
    logistics_ship data; logistics_air data; waste_landfill data;
    waste_recycled data; production data ].

Definition nonneg_input (data : ActivityInput) : Prop :=
  Forall (fun x => 0 <= x) (fields data).

(** The three scope totals and the grand total are not negative. *)
Definition totals_nonneg (data : ActivityInput) : Prop :=
  exists s2, scope2_total data = Ok s2 /\
    0 <= scope1_total data /\ 0 <= s2 /\ 0 <= scope3_total data /\
    0 <= total data s2.

(** 10000 kWh with a renewable share of 200 percent. *)
Definition over_renewable : ActivityInput :=
  read_form float_decimal [("electricity", "10000"); ("renewable", "200")]%string.

(** One litre of diesel and nothing else. *)
Definition one_litre : ActivityInput :=
  read_form float_decimal [("diesel", "1")]%string.

(** The categories of the three scopes, in the order of the updates. *)
Definition categories (data : ActivityInput) : dict Q :=
  scope1 data ++ scope2 data ++ scope3 data.

(** The entries of [d] with a value above zero, each rounded to 2 decimals. *)
Definition rounded_positive (d : dict Q) : dict Q :=
  map (fun kv => (fst kv, round (snd kv) 2)) (filter (fun kv => Qgtb (snd kv) 0) d).

(** No entry of the dict has the value zero. *)
Definition no_zero_entry (d : dict Q) : Prop :=
  forall k v, In (k, v) d -> ~ v == 0.

(** One tonne of coal and minus two kilograms of R134a. *)
Definition cancelling_form : dict string :=
  [("coal", "1"); ("refrigerant_r134a", "-2")]%string.

(** The worked example: 10000 kWh, no renewable share, no diesel. *)
Definition example_form : dict string :=
  [("electricity", "10000"); ("renewable", "0"); ("diesel", "0")]%string.

(** The same data as a record, with any production figure. *)
Definition example_input (production : Q) : ActivityInput :=
  {| diesel := 0; petrol := 0; natural_gas := 0; coal := 0; lpg := 0;
     electricity := 10000; renewable := 0;
     refrigerant_r22 := 0; refrigerant_r410a := 0; refrigerant_r134a := 0;
     steel := 0; cement := 0; aluminum := 0; plastic := 0; paper := 0; glass := 0;
     logistics_truck := 0; logistics_ship := 0; logistics_air := 0;
     waste_landfill := 0; waste_recycled := 0;
     production := production |}.

(** A form value that [safe_float] replaces by the default: absent, empty,
    or rejected by [float]. *)
Definition unusable (float : string -> option Q) (value : option string) : Prop :=
  value = None \/ value = Some ""%string \/
  exists s, value = Some s /\ float s = None.

(** The dict [data] of [index]: form key and coerced value. *)
Definition data_items (data : ActivityInput) : dict Q :=
  [ ("diesel", diesel data); ("petrol", petrol data);
    ("natural_gas", natural_gas data); ("coal", coal data); ("lpg", lpg data);
    ("electricity", electricity data); ("renewable", renewable data);
    ("refrigerant_r22", refrigerant_r22 data);
    ("refrigerant_r410a", refrigerant_r410a data);
    ("refrigerant_r134a", refrigerant_r134a data);
    ("steel", steel data); ("cement", cement data); ("aluminum", aluminum data);
    ("plastic", plastic data); ("paper", paper data); ("glass", glass data);
    ("logistics_truck", logistics_truck data);
    ("logistics_ship", logistics_ship data);
    ("logistics_air", logistics_air data);
    ("waste_landfill", waste_landfill data);
    ("waste_recycled", waste_recycled data);
    ("production", production data) ]%string.

(** The default [index] passes to [safe_float] for the key. *)
Definition field_default (k : string) : Q :=
  if String.eqb k "production" then 1 else 0.

(** One entry of the hotspot list. *)
Definition hotspot_entry (total : Q) (kv : string * Q) : Hotspot.t :=
  {| Hotspot.source := fst kv;
     Hotspot.emission := snd kv;
     Hotspot.percent := snd kv / total * 100 |}.

(** The grand total as [index] computes it. *)
Definition grand_total (data : ActivityInput) : Q :=
  total data (grid_electricity data * FACTORS.electricity).

(** A renewable share of 60 percent and nothing else: no condition holds. *)
Definition nothing_applies : ActivityInput :=
  read_form float_decimal [("renewable", "60")]%string.

(** * Further vocabulary *)

(** The scenario list of a request, in closed form. *)
Definition scenario_list (data : ActivityInput) : list Scenario :=
  list_sort key_lt sort_key (individual data (raw_materials data))
  ++ [combined_row (individual data (raw_materials data))].

(** The result record of a request in closed form, given the hotspots. *)
Definition result_record (data : ActivityInput) (hs : list Hotspot.t) : Result.t :=
  let c := combined_row (individual data (raw_materials data)) in
  {| Result.scope1 := round (scope1_total data) 2;
     Result.scope2 := round (grid_electricity data * FACTORS.electricity) 2;
     Result.scope3 := round (scope3_total data) 2;
     Result.total := round (grand_total data) 2;
     Result.intensity := round (guarded (grand_total data) (production data)) 4;
     Result.renewable := renewable data;
     Result.production := production data;
     Result.by_scope := [ round (scope1_total data) 2;
                          round (grid_electricity data * FACTORS.electricity) 2;
                          round (scope3_total data) 2 ];
     Result.by_source := by_source data;
     Result.carbon_costs_by_source := carbon_costs_by_source (by_source data);
     Result.carbon_cost := round (grand_total data * CARBON_PRICE) 2;
     Result.scenarios := scenario_list data;
     Result.ten_year_savings := round (annual_savings c * 10) 2;
     Result.ten_year_reduction := round (carbon_reduction c * 10) 2;
     Result.hotspots := hs |}.

(** The first hotspot has at least the emission of the second. *)
Definition emission_ge (a b : Hotspot.t) : Prop :=
  Hotspot.emission b <= Hotspot.emission a.

(** * Properties *)

(** ** Comparisons and guarded divisions *)

Lemma Qltb_lt (x y : Q) : Qltb x y = true <-> x < y.
Proof.
  unfold Qltb. rewrite negb_true_iff, <- not_true_iff_false, Qle_bool_iff.
  split; intro H; [apply Qnot_le_lt | apply Qlt_not_le]; exact H.
Qed.

Lemma Qltb_ge (x y : Q) : Qltb x y = false <-> y <= x.
Proof.
  unfold Qltb. rewrite negb_false_iff. apply Qle_bool_iff.
Qed.

Lemma Qgtb_gt (x y : Q) : Qgtb x y = true <-> y < x.
Proof. apply Qltb_lt. Qed.

Lemma Qgtb_le (x y : Q) : Qgtb x y = false <-> x <= y.
Proof. apply Qltb_ge. Qed.

Lemma Qltb_comp (x x' y y' : Q) : x == x' -> y == y' -> Qltb x y = Qltb x' y'.
Proof.
  intros Hx Hy. unfold Qltb. f_equal. apply Qleb_comp; assumption.
Qed.

Lemma pydiv_pos (a b : Q) : Qgtb b 0 = true -> pydiv a b = Ok (a / b).
Proof.
  intro H. apply Qgtb_gt in H. unfold pydiv.
  destruct (Qeq_bool b 0) eqn:E; [|reflexivity].
  apply Qeq_bool_eq in E. rewrite E in H. exfalso. apply (Qlt_irrefl 0 H).
Qed.

Lemma guarded_div (a b : Q) :
  (if Qgtb b 0 then pydiv a b else Ok 0) = Ok (guarded a b).
Proof.
  unfold guarded. destruct (Qgtb b 0) eqn:E; [apply pydiv_pos; exact E | reflexivity].
Qed.

Lemma guarded_div_round (a b : Q) (n : nat) :
  (if Qgtb b 0 then q <- pydiv a b ;; Ok (round q n) else Ok 0)
  = Ok (guarded_round a b n).
Proof.
  unfold guarded_round. destruct (Qgtb b 0) eqn:E; [|reflexivity].
  rewrite (pydiv_pos _ _ E). reflexivity.
Qed.

(** ** Rounding *)

Lemma round_half_even_comp (x y : Q) : x == y -> round_half_even x = round_half_even y.
Proof.
  intro H. unfold round_half_even.
  rewrite (Qfloor_comp _ _ H).
  rewrite (Qltb_comp (x - inject_Z (Qfloor y)) (y - inject_Z (Qfloor y)) (1#2) (1#2)),
          (Qltb_comp (1#2) (1#2) (x - inject_Z (Qfloor y)) (y - inject_Z (Qfloor y)));
    try reflexivity; rewrite H; reflexivity.
Qed.

Lemma round_comp (x y : Q) (n : nat) : x == y -> round x n = round y n.
Proof.
  intro H. unfold round. apply Qred_complete.
  rewrite (round_half_even_comp (x * inject_Z (Zpos (pow10 n))) (y * inject_Z (Zpos (pow10 n))));
    [reflexivity | rewrite H; reflexivity].
Qed.

Lemma round_half_even_Z (z : Z) : round_half_even (inject_Z z) = z.
Proof.
  unfold round_half_even. rewrite Qfloor_Z.
  assert (E : Qltb (inject_Z z - inject_Z z) (1 # 2) = true).
  { apply Qltb_lt. setoid_replace (inject_Z z - inject_Z z) with 0 by ring. reflexivity. }
  rewrite E. reflexivity.
Qed.

Lemma round_half_even_floor (x : Q) : (Qfloor x <= round_half_even x)%Z.
Proof.
  unfold round_half_even.
  destruct (Qltb _ _); [lia|]. destruct (Qltb _ _); [lia|]. destruct (Z.even _); lia.
Qed.

Lemma decimals_round (x : Q) (n : nat) : decimals n (round x n).
Proof.
  eexists. unfold round. apply Qred_correct.
Qed.

Lemma Qmake_scale (z : Z) (p : positive) : (z # p) * inject_Z (Zpos p) == inject_Z z.
Proof.
  unfold Qeq, Qmult, inject_Z. simpl. rewrite Pos.mul_1_r. ring.
Qed.

Lemma round_decimals (x : Q) (n : nat) : decimals n x -> round x n == x.
Proof.
  intros [z Hz]. unfold round. rewrite Qred_correct.
  rewrite (round_half_even_comp _ (inject_Z z)).
  - rewrite round_half_even_Z. symmetry. exact Hz.
  - rewrite Hz. apply Qmake_scale.
Qed.



(** Rounding does not go below an integer that the value reaches. *)
Lemma round_lower (z : Z) (x : Q) (n : nat) : inject_Z z <= x -> inject_Z z <= round x n.
Proof.
  intro H. unfold round. rewrite Qred_correct.
  set (p := pow10 n).
  assert (Hf : (z * Zpos p <= round_half_even (x * inject_Z (Zpos p)))%Z).
  { eapply Z.le_trans; [|apply round_half_even_floor].
    rewrite <- (Qfloor_Z (z * Zpos p)). apply Qfloor_resp_le.
    rewrite inject_Z_mult. apply Qmult_le_compat_r; [exact H|].
    unfold Qle; simpl; lia. }
  unfold Qle, inject_Z. cbn [Qnum Qden]. rewrite Z.mul_1_r. exact Hf.
Qed.

(** ** The blocks of [calculate_scenarios] never raise *)

Ltac run_block :=
  repeat (rewrite ?guarded_div, ?guarded_div_round; cbn [bind]).

Lemma scenario_solar_row (data : ActivityInput) (l : list Scenario) :
  scenario_solar data l = Ok (l ++ when (Qgtb (electricity data) 0) (solar_row data)).
Proof.
  unfold scenario_solar, when. destruct (Qgtb (electricity data) 0).
  - run_block. reflexivity.
  - rewrite app_nil_r. reflexivity.
Qed.

Lemma scenario_ev_row (data : ActivityInput) (l : list Scenario) :
  scenario_ev data l
  = Ok (l ++ when (Qgtb (diesel data) 1000 || Qgtb (petrol data) 500) (ev_row data)).
Proof.
  unfold scenario_ev, when. destruct (Qgtb (diesel data) 1000 || Qgtb (petrol data) 500).
  - run_block. reflexivity.
  - rewrite app_nil_r. reflexivity.
Qed.

Lemma scenario_efficiency_row (data : ActivityInput) (l : list Scenario) :
  scenario_efficiency data l
  = Ok (l ++ when (Qgtb (electricity data) 0) (efficiency_row data)).
Proof.
  unfold scenario_efficiency, when. destruct (Qgtb (electricity data) 0).
  - run_block. reflexivity.
  - rewrite app_nil_r. reflexivity.
Qed.

Lemma scenario_waste_row (data : ActivityInput) (l : list Scenario) :
  scenario_waste data l
  = Ok (l ++ when (Qgtb (waste_landfill data) 0) (waste_row data)).
Proof.
  unfold scenario_waste, when. destruct (Qgtb (waste_landfill data) 0).
  - run_block. reflexivity.
  - rewrite app_nil_r. reflexivity.
Qed.

Lemma scenario_green_row (data : ActivityInput) (l : list Scenario) :
  scenario_green data l
  = Ok (l ++ when (Qltb (renewable data) 50) (green_row data)).
Proof.
  unfold scenario_green, when. destruct (Qltb (renewable data) 50).
  - reflexivity.
  - rewrite app_nil_r. reflexivity.
Qed.

Lemma scenario_material_row (scope3 : dict Q) (raw : Q) (l : list Scenario) :
  getitem scope3 "Raw Materials" = Ok raw ->
  scenario_material scope3 l = Ok (l ++ when (Qgtb raw 10) (material_row raw)).
Proof.
  intro H. unfold scenario_material, when. rewrite H. cbn [bind].
  destruct (Qgtb raw 10).
  - run_block. reflexivity.
  - rewrite app_nil_r. reflexivity.
Qed.

Lemma scenario_combined_row (l : list Scenario) :
  scenario_combined l = Ok (l ++ [combined_row l]).
Proof.
  unfold scenario_combined. run_block. reflexivity.
Qed.

Lemma getitem_raw_materials (data : ActivityInput) :
  getitem (scope3 data) "Raw Materials" = Ok (raw_materials data).
Proof. reflexivity. Qed.

(** [calculate_scenarios] in closed form. *)
Lemma calculate_scenarios_closed (data : ActivityInput)
    (scope1 scope2 scope3 : dict Q) (total_emissions raw : Q) :
  getitem scope3 "Raw Materials" = Ok raw ->
  calculate_scenarios data scope1 scope2 scope3 total_emissions
  = Ok (list_sort key_lt sort_key
          (individual data raw ++ [combined_row (individual data raw)])).
Proof.
  intro H. unfold calculate_scenarios.
  rewrite scenario_solar_row. cbn [bind].
  rewrite scenario_ev_row. cbn [bind].
  rewrite scenario_efficiency_row. cbn [bind].
  rewrite scenario_waste_row. cbn [bind].
  rewrite scenario_green_row. cbn [bind].
  rewrite (scenario_material_row _ _ _ H). cbn [bind].
  rewrite scenario_combined_row. cbn [bind].
  unfold individual. cbn [app]. rewrite <- !app_assoc. reflexivity.
Qed.

(** ** The stable sort *)

Section SortFacts.
Context {A K : Type} (lt : K -> K -> bool) (key : A -> K).
Hypothesis lt_asym : forall a b, lt a b = true -> lt b a = false.
Hypothesis lt_trans : forall a b c, lt a b = true -> lt b c = true -> lt a c = true.

Local Abbreviation precedes := (precedes lt key).

Lemma insort_perm (x : A) (l : list A) : Permutation (insort lt key x l) (x :: l).
Proof.
  induction l as [|y l IH]; cbn [insort].
  - reflexivity.
  - destruct (lt (key x) (key y)); [reflexivity|].
    rewrite IH. apply perm_swap.
Qed.

Lemma fold_insort_perm (l acc : list A) :
  Permutation (fold_left (fun acc x => insort lt key x acc) l acc) (acc ++ l).
Proof.
  revert acc. induction l as [|x l IH]; intro acc; cbn [fold_left].
  - rewrite app_nil_r. reflexivity.
  - rewrite IH, insort_perm. apply Permutation_middle.
Qed.

Lemma list_sort_perm (l : list A) : Permutation (list_sort lt key l) l.
Proof. apply (fold_insort_perm l []). Qed.

Lemma insort_sorted (x : A) (l : list A) :
  StronglySorted precedes l -> StronglySorted precedes (insort lt key x l).
Proof.
  induction 1 as [|y l Hs IH Hy]; cbn [insort].
  - constructor; constructor.
  - destruct (lt (key x) (key y)) eqn:E.
    + constructor; [constructor; assumption|].
      constructor; [apply lt_asym; exact E|].
      rewrite Forall_forall in *. intros z Hz. specialize (Hy z Hz).
      unfold precedes in *. destruct (lt (key z) (key x)) eqn:E'; [|reflexivity].
      rewrite (lt_trans _ _ _ E' E) in Hy. discriminate.
    + constructor; [exact IH|].
      rewrite Forall_forall in *. intros z Hz.
      apply (Permutation_in _ (insort_perm x l)) in Hz.
      destruct Hz as [<-|Hz]; [exact E | apply Hy; exact Hz].
Qed.

Lemma fold_insort_sorted (l acc : list A) :
  StronglySorted precedes acc ->
  StronglySorted precedes (fold_left (fun acc x => insort lt key x acc) l acc).
Proof.
  revert acc. induction l as [|x l IH]; intros acc H; cbn [fold_left].
  - exact H.
  - apply IH, insort_sorted, H.
Qed.

Lemma list_sort_sorted (l : list A) : StronglySorted precedes (list_sort lt key l).
Proof. apply fold_insort_sorted. constructor. Qed.

Lemma list_sort_snoc (l : list A) (c : A) :
  list_sort lt key (l ++ [c]) = insort lt key c (list_sort lt key l).
Proof. unfold list_sort. rewrite fold_left_app. reflexivity. Qed.

Lemma insort_last (c : A) (l : list A) :
  Forall (fun y => lt (key c) (key y) = false) l -> insort lt key c l = l ++ [c].
Proof.
  induction 1 as [|y l Hy _ IH]; cbn [insort app].
  - reflexivity.
  - rewrite Hy, IH. reflexivity.
Qed.
End SortFacts.


Lemma before_cons {A : Type} (x a b : A) (l : list A) :
  appears_before a b l -> appears_before a b (x :: l).
Proof.
  intros (l1 & l2 & l3 & ->). exists (x :: l1), l2, l3. reflexivity.
Qed.

Lemma before_head {A : Type} (a b : A) (l : list A) :
  In b l -> appears_before a b (a :: l).
Proof.
  intro H. apply in_split in H. destruct H as (l2 & l3 & ->).
  exists [], l2, l3. reflexivity.
Qed.


(** The order on the sort keys is a strict order. *)
Lemma key_lt_asym (a b : bool * Q) : key_lt a b = true -> key_lt b a = false.
Proof.
  destruct a as [a x], b as [b y]. unfold key_lt. cbn [fst snd].
  destruct a, b; cbn; try discriminate; try reflexivity.
  all: rewrite (Qeq_bool_comm y x); destruct (Qeq_bool x y); [discriminate|];
    intro H; apply Qltb_lt in H; apply Qltb_ge; apply Qlt_le_weak; exact H.
Qed.

Lemma key_lt_trans (a b c : bool * Q) :
  key_lt a b = true -> key_lt b c = true -> key_lt a c = true.
Proof.
  destruct a as [a x], b as [b y], c as [c z]. unfold key_lt. cbn [fst snd].
  destruct a, b, c; cbn; try discriminate; try reflexivity.
  all: destruct (Qeq_bool x y) eqn:E1; [discriminate|];
    destruct (Qeq_bool y z) eqn:E2; [discriminate|];
    intros H1 H2; apply Qltb_lt in H1; apply Qltb_lt in H2;
    assert (H : x < z) by (eapply Qlt_trans; eassumption);
    destruct (Qeq_bool x z) eqn:E3;
    [ apply Qeq_bool_eq in E3; rewrite E3 in H; exfalso; apply (Qlt_irrefl z H)
    | apply Qltb_lt; exact H ].
Qed.

(** ** Shape of the result of [calculate_scenarios] *)

Lemma in_when (b : bool) (x s : Scenario) : In s (when b x) <-> b = true /\ s = x.
Proof.
  unfold when. destruct b; cbn [In].
  - split; [intros [<-|[]]; auto | intros [_ ->]; auto].
  - split; [intros [] | intros [H _]; discriminate].
Qed.

Lemma in_individual (data : ActivityInput) (raw : Q) (s : Scenario) :
  In s (individual data raw) <->
  (Qgtb (electricity data) 0 = true /\ s = solar_row data) \/
  (Qgtb (diesel data) 1000 || Qgtb (petrol data) 500 = true /\ s = ev_row data) \/
  (Qgtb (electricity data) 0 = true /\ s = efficiency_row data) \/
  (Qgtb (waste_landfill data) 0 = true /\ s = waste_row data) \/
  (Qltb (renewable data) 50 = true /\ s = green_row data) \/
  (Qgtb raw 10 = true /\ s = material_row raw).
Proof.
  unfold individual. rewrite !in_app_iff, !in_when. tauto.
Qed.

Lemma individual_not_combined (data : ActivityInput) (raw : Q) :
  Forall (fun s => is_combined s = None) (individual data raw).
Proof.
  apply Forall_forall. intros s H. apply in_individual in H.
  destruct H as [[_ ->]|[[_ ->]|[[_ ->]|[[_ ->]|[[_ ->]|[_ ->]]]]]]; reflexivity.
Qed.

Lemma list_sort_not_combined (l : list Scenario) :
  Forall (fun s => is_combined s = None) l ->
  Forall (fun s => is_combined s = None) (list_sort key_lt sort_key l).
Proof.
  intro H. rewrite Forall_forall in *. intros s Hs. apply H.
  apply (Permutation_in _ (list_sort_perm key_lt sort_key l)), Hs.
Qed.

(** The combined scenario stays behind every scenario without the flag. *)
Lemma sort_combined_last (l : list Scenario) (c : Scenario) :
  Forall (fun s => is_combined s = None) l -> is_combined c = Some true ->
  list_sort key_lt sort_key (l ++ [c]) = list_sort key_lt sort_key l ++ [c].
Proof.
  intros Hl Hc. rewrite list_sort_snoc. apply insort_last.
  apply list_sort_not_combined in Hl. revert Hl. apply Forall_impl.
  intros s Hs. unfold key_lt, sort_key, get_is_combined. rewrite Hs, Hc. reflexivity.
Qed.

Lemma calculate_scenarios_shape (data : ActivityInput)
    (scope1 scope2 scope3 : dict Q) (total_emissions raw : Q) :
  getitem scope3 "Raw Materials" = Ok raw ->
  calculate_scenarios data scope1 scope2 scope3 total_emissions
  = Ok (list_sort key_lt sort_key (individual data raw)
        ++ [combined_row (individual data raw)]).
Proof.
  intro H. rewrite (calculate_scenarios_closed _ _ _ _ _ _ H).
  rewrite sort_combined_last; [reflexivity | apply individual_not_combined | reflexivity].
Qed.

Lemma in_sorted_individual (data : ActivityInput) (raw : Q) (s : Scenario) :
  In s (list_sort key_lt sort_key (individual data raw)) <-> In s (individual data raw).
Proof.
  split; apply Permutation_in;
    [|symmetry]; apply list_sort_perm.
Qed.

(** ** Stability of the sort *)

Lemma before_cons_inv {A : Type} (y a b : A) (l : list A) :
  appears_before a b (y :: l) -> (a = y /\ In b l) \/ appears_before a b l.
Proof.
  intros (l1 & l2 & l3 & E). destruct l1 as [|z l1]; cbn [app] in E.
  - injection E as <- ->. left. split; [reflexivity|].
    apply in_or_app. right. left. reflexivity.
  - injection E as _ ->. right. exists l1, l2, l3. reflexivity.
Qed.

Lemma before_snoc_inv {A : Type} (x a b : A) (l : list A) :
  appears_before a b (l ++ [x]) -> appears_before a b l \/ (b = x /\ In a l).
Proof.
  intros (l1 & l2 & l3 & E).
  destruct l3 as [|z l3 _] using rev_ind.
  - right. replace (l1 ++ a :: l2 ++ [b]) with ((l1 ++ a :: l2) ++ [b]) in E
      by (rewrite <- app_assoc; reflexivity).
    apply app_inj_tail in E. destruct E as [-> ->]. split; [reflexivity|].
    apply in_or_app. right. left. reflexivity.
  - left. replace (l1 ++ a :: l2 ++ b :: l3 ++ [z])
      with ((l1 ++ a :: l2 ++ b :: l3) ++ [z]) in E.
    + apply app_inj_tail in E. destruct E as [-> _]. exists l1, l2, l3. reflexivity.
    + rewrite <- app_assoc. cbn [app]. rewrite <- app_assoc. reflexivity.
Qed.

Section Stability.
Context {A K : Type} (lt : K -> K -> bool) (key : A -> K).
Hypothesis lt_asym : forall a b, lt a b = true -> lt b a = false.
Hypothesis lt_trans : forall a b c, lt a b = true -> lt b c = true -> lt a c = true.
Hypothesis lt_between : forall a b c, lt a c = true -> lt a b = true \/ lt b c = true.

Lemma insort_keeps_before (x a b : A) (l : list A) :
  appears_before a b l -> appears_before a b (insort lt key x l).
Proof.
  induction l as [|y l IH]; intro H; cbn [insort].
  - destruct H as (l1 & l2 & l3 & E). destruct l1; discriminate E.
  - destruct (lt (key x) (key y)); [apply before_cons, H|].
    apply before_cons_inv in H. destruct H as [[-> Hb]|H].
    + apply before_head.
      apply (Permutation_in _ (Permutation_sym (insort_perm lt key x l))).
      right. exact Hb.
    + apply before_cons, IH, H.
Qed.

Lemma insort_behind (x a : A) (l : list A) :
  StronglySorted (precedes lt key) l -> In a l -> lt (key x) (key a) = false ->
  appears_before a x (insort lt key x l).
Proof.
  induction 1 as [|y l Hs IH Hy]; intros Ha Hxa; [destruct Ha|].
  cbn [insort]. destruct (lt (key x) (key y)) eqn:E.
  - exfalso. destruct Ha as [->|Ha]; [congruence|].
    rewrite Forall_forall in Hy. specialize (Hy a Ha). unfold precedes in Hy.
    destruct (lt_between _ (key a) _ E); congruence.
  - destruct Ha as [->|Ha].
    + apply before_head.
      apply (Permutation_in _ (Permutation_sym (insort_perm lt key x l))).
      left. reflexivity.
    + apply before_cons, IH; assumption.
Qed.

(** The sort is stable: an element that stood before another one whose key
    is not smaller still stands before it. *)
Lemma list_sort_stable (a b : A) (l : list A) :
  appears_before a b l -> lt (key b) (key a) = false ->
  appears_before a b (list_sort lt key l).
Proof.
  induction l as [|x l IH] using rev_ind; intros H Hk.
  - destruct H as (l1 & l2 & l3 & E). destruct l1; discriminate E.
  - rewrite list_sort_snoc. apply before_snoc_inv in H. destruct H as [H|[-> Ha]].
    + apply insort_keeps_before, IH; assumption.
    + apply insort_behind.
      * apply list_sort_sorted; assumption.
      * apply (Permutation_in _ (Permutation_sym (list_sort_perm lt key l))), Ha.
      * exact Hk.
Qed.
End Stability.

Lemma key_lt_between (a b c : bool * Q) :
  key_lt a c = true -> key_lt a b = true \/ key_lt b c = true.
Proof.
  destruct a as [a x], b as [b y], c as [c z]. unfold key_lt. cbn [fst snd].
  destruct a, b, c; cbn; auto; try discriminate.
  all: destruct (Qeq_bool x z) eqn:E; [discriminate|]; intro H; apply Qltb_lt in H;
    destruct (Qlt_le_dec x y) as [Hxy|Hxy];
    [ left; destruct (Qeq_bool x y) eqn:E1;
      [ apply Qeq_bool_eq in E1; rewrite E1 in Hxy; exfalso; apply (Qlt_irrefl _ Hxy)
      | apply Qltb_lt, Hxy ]
    | right; assert (Hyz : y < z) by (eapply Qle_lt_trans; eassumption);
      destruct (Qeq_bool y z) eqn:E2;
      [ apply Qeq_bool_eq in E2; rewrite E2 in Hyz; exfalso; apply (Qlt_irrefl _ Hyz)
      | apply Qltb_lt, Hyz ] ].
Qed.

(** ** Order of the scenarios *)





(** ** Gating of the six scenarios *)

Ltac unfold_figures :=
  unfold solar_roi, solar_investment, system_size_kw, solar_energy_savings,
    solar_emission_reduction, solar_kwh, solar_offset_pct,
    efficiency_roi, efficiency_investment, efficiency_cost_savings,
    efficiency_emission_reduction, kwh_saved, efficiency_savings_pct,
    waste_roi, waste_investment, waste_cost_savings, waste_emission_reduction,
    waste_diverted, waste_reduction_pct,
    ENERGY_COSTS.electricity, FACTORS.electricity,
    FACTORS.waste_landfill, FACTORS.waste_recycled, inject_Z in *.

Lemma solar_investment_linear (data : ActivityInput) :
  solar_investment data == 160 * electricity data.
Proof. unfold_figures. field. Qed.





Lemma ev_investment_lower (data : ActivityInput) :
  1500000 <= investment (ev_row data).
Proof.
  cbn [investment ev_row]. apply (round_lower 1500000).
  unfold ev_investment. rewrite <- Zle_Qle. unfold vehicles_to_replace. lia.
Qed.


Lemma in_result (data : ActivityInput) (raw : Q) (s : Scenario) :
  In s (list_sort key_lt sort_key (individual data raw)
        ++ [combined_row (individual data raw)]) <->
  In s (individual data raw) \/ s = combined_row (individual data raw).
Proof.
  rewrite in_app_iff, in_sorted_individual. cbn [In]. intuition.
Qed.

Ltac by_name H := lazy in H; discriminate H.






(** ** Sums *)

Lemma fold_plus_comp (xs : list Q) (a b : Q) :
  a == b -> fold_left Qplus xs a == fold_left Qplus xs b.
Proof.
  revert a b. induction xs as [|x xs IH]; intros a b H; cbn [fold_left].
  - exact H.
  - apply IH. rewrite H. reflexivity.
Qed.

Lemma fold_plus_shift (xs : list Q) (a : Q) :
  fold_left Qplus xs a == a + fold_left Qplus xs 0.
Proof.
  revert a. induction xs as [|x xs IH]; intro a; cbn [fold_left].
  - ring.
  - rewrite (IH (a + x)), (IH (0 + x)). ring.
Qed.

Lemma sum_cons (x : Q) (xs : list Q) : sum (x :: xs) == x + sum xs.
Proof.
  unfold sum. cbn [fold_left]. rewrite fold_plus_shift. ring.
Qed.

Lemma sum_perm (xs ys : list Q) : Permutation xs ys -> sum xs == sum ys.
Proof.
  induction 1 as [|x xs ys _ IH|x y xs|xs ys zs _ IH1 _ IH2].
  - reflexivity.
  - rewrite !sum_cons, IH. reflexivity.
  - rewrite !sum_cons. ring.
  - rewrite IH1. exact IH2.
Qed.


Lemma sum_nonneg (xs : list Q) : Forall (fun x => 0 <= x) xs -> 0 <= sum xs.
Proof.
  induction 1 as [|x xs Hx _ IH].
  - apply Qle_refl.
  - rewrite sum_cons. lra.
Qed.

Lemma filter_perm {A : Type} (f : A -> bool) (l l' : list A) :
  Permutation l l' -> Permutation (filter f l) (filter f l').
Proof.
  induction 1 as [|x l l' _ IH|x y l|l l' l'' _ IH1 _ IH2]; cbn [filter].
  - constructor.
  - destruct (f x); [constructor|]; exact IH.
  - destruct (f x), (f y); try reflexivity. apply perm_swap.
  - rewrite IH1. exact IH2.
Qed.

(** ** The combined scenario adds up the others *)





(** ** Payback and ROI *)

Lemma total_investment_perm (l l' : list Scenario) :
  Permutation l l' -> total_investment l == total_investment l'.
Proof.
  intro H. apply sum_perm, Permutation_map, filter_perm, H.
Qed.

Lemma total_savings_perm (l l' : list Scenario) :
  Permutation l l' -> total_savings l == total_savings l'.
Proof.
  intro H. apply sum_perm, Permutation_map, H.
Qed.

Lemma guarded_round_comp (a a' b b' : Q) (n : nat) :
  a == a' -> b == b' -> guarded_round a b n = guarded_round a' b' n.
Proof.
  intros Ha Hb. unfold guarded_round, Qgtb.
  rewrite (Qltb_comp 0 0 b b' (Qeq_refl 0) Hb).
  destruct (Qltb 0 b'); [|reflexivity].
  apply round_comp. rewrite Ha, Hb. reflexivity.
Qed.

Lemma ratio_rule_row (inv sav : Q) (s : Scenario) :
  investment s = round inv 2 -> annual_savings s = round sav 2 ->
  payback_years s = guarded_round inv sav 1 ->
  roi_percent s = round (guarded (sav * 100) inv) 1 ->
  ratio_rule false inv sav s.
Proof.
  intros H1 H2 H3 H4. unfold ratio_rule. rewrite H1, H2, H3, H4.
  repeat split; try reflexivity.
  unfold guarded. destruct (Qgtb inv 0); reflexivity.
Qed.

Lemma ratio_rule_green (data : ActivityInput) :
  ratio_rule true renewable_investment (net_renewable_savings data) (green_row data).
Proof.
  unfold ratio_rule. cbn [investment annual_savings payback_years roi_percent green_row].
  repeat split; try reflexivity.
  destruct (Qgtb (net_renewable_savings data) 0); [|reflexivity].
  rewrite (round_comp _ 0); [reflexivity|].
  unfold renewable_investment, Qdiv. ring.
Qed.

(** In binary64 the ROI of Rooftop Solar at electricity 1e306 is inf: the
    investment 1.6e308 is still a float, the savings times 100 are not.  No
    division by zero is involved. *)
Lemma solar_roi_overflows :
  exists r,
    Binary64.scenario_solar Binary64.huge_electricity = Ok (Some r) /\
    Binary64.roi_percent r = PrimFloat.infinity /\
    PrimFloat.is_finite (Binary64.roi_percent r) = false /\
    PrimFloat.is_finite (Binary64.investment r) = true.
Proof.
  eexists. split; [vm_compute; reflexivity|]. repeat split.
Qed.

(** C7, as the code has it: the payback and ROI guards test the figures
    before rounding, and a quotient is rounded to one decimal.  For every
    emitted scenario, with [inv] and [sav] its investment and savings before
    rounding: payback_years is 0 when [sav <= 0] and round(inv / sav, 1)
    otherwise; roi_percent is round(sav * 100 / inv, 1) when [inv > 0] and
    otherwise 0, or the literal 999 for Green Energy Procurement with
    positive net savings.  No division has a zero divisor, so the call
    returns and no field is undefined by a division.  A field can still be
    infinite: in binary64 an intermediate product can leave the range, as
    for Rooftop Solar at electricity 1e306. *)
Theorem payback_and_roi_guarded
    (data : ActivityInput) (scope1 scope2 : dict Q) (total_emissions : Q) :
  (exists l c,
    calculate_scenarios data scope1 scope2 (scope3 data) total_emissions = Ok (l ++ [c]) /\
    (forall s, In s l ->
       exists title inv sav,
         In (title, (inv, sav)) (unrounded_figures data) /\
         String.prefix title (name s) = true /\
         ratio_rule (String.eqb title "Green Energy Procurement") inv sav s) /\
    ratio_rule false (total_investment l) (total_savings l) c) /\
  (exists r,
    Binary64.scenario_solar Binary64.huge_electricity = Ok (Some r) /\
    PrimFloat.is_finite (Binary64.roi_percent r) = false).
Proof.
  split; [|destruct solar_roi_overflows as (r & E & _ & H & _); exists r; auto].
  set (ind := individual data (raw_materials data)).
  exists (list_sort key_lt sort_key ind), (combined_row ind).
  pose proof (list_sort_perm key_lt sort_key ind) as Hp.
  split; [apply calculate_scenarios_shape, getitem_raw_materials|].
  split.
  - intros s Hs. apply in_sorted_individual, in_individual in Hs.
    destruct Hs as [[_ ->]|[[_ ->]|[[_ ->]|[[_ ->]|[[_ ->]|[_ ->]]]]]].
    + exists "Rooftop Solar"%string, (solar_investment data), (solar_energy_savings data).
      split; [cbn; tauto|]. split; [reflexivity|]. apply ratio_rule_row; reflexivity.
    + exists "EV Fleet"%string, (ev_investment data), (ev_fuel_savings data).
      split; [cbn; tauto|]. split; [reflexivity|]. apply ratio_rule_row; reflexivity.
    + exists "Energy Efficiency"%string, (efficiency_investment data),
        (efficiency_cost_savings data).
      split; [cbn; tauto|]. split; [reflexivity|]. apply ratio_rule_row; reflexivity.
    + exists "Waste Diversion"%string, (waste_investment data), (waste_cost_savings data).
      split; [cbn; tauto|]. split; [reflexivity|]. apply ratio_rule_row; reflexivity.
    + exists "Green Energy Procurement"%string, renewable_investment,
        (net_renewable_savings data).
      split; [cbn; tauto|]. split; [lazy; reflexivity|]. apply ratio_rule_green.
    + exists "Material Efficiency"%string, material_investment,
        (material_cost_savings (raw_materials data)).
      split; [cbn; tauto|]. split; [reflexivity|]. apply ratio_rule_row; reflexivity.
  - apply ratio_rule_row; cbn [investment annual_savings payback_years roi_percent
                               combined_row].
    + apply round_comp, total_investment_perm. symmetry. exact Hp.
    + apply round_comp, total_savings_perm. symmetry. exact Hp.
    + apply guarded_round_comp;
        [apply total_investment_perm | apply total_savings_perm]; symmetry; exact Hp.
    + unfold guarded_round, guarded, Qgtb.
      rewrite (Qltb_comp 0 0 _ (total_investment (list_sort key_lt sort_key ind))
                 (Qeq_refl 0) (total_investment_perm _ _ (Permutation_sym Hp))).
      destruct (Qltb 0 (total_investment (list_sort key_lt sort_key ind)));
        [|reflexivity].
      apply round_comp.
      rewrite (total_investment_perm _ _ (Permutation_sym Hp)),
              (total_savings_perm _ _ (Permutation_sym Hp)). reflexivity.
Qed.

(** C7 as stated fails twice.  On the stored fields: with 0.001 kWh of
    electricity the Rooftop Solar scenario stores annual_savings 0 (0.0034
    rounded) and payback_years 47.1, and 47.1 is the rounded quotient of
    0.16 by 0.0034, not the quotient.  On the last clause: in binary64 the
    same scenario at electricity 1e306 has roi_percent inf. *)
Lemma payback_follows_unrounded_savings :
  (exists l s,
    calculate_scenarios tiny_input (scope1 tiny_input) (scope2 tiny_input)
                        (scope3 tiny_input) 0.00000071 = Ok l /\
    In s l /\
    annual_savings s == 0 /\ payback_years s == 47.1 /\
    ~ payback_years s == solar_investment tiny_input / solar_energy_savings tiny_input /\
    ~ ratio_rule_on_fields s) /\
  (exists r,
    Binary64.scenario_solar Binary64.huge_electricity = Ok (Some r) /\
    Binary64.roi_percent r = PrimFloat.infinity).
Proof.
  split; [|destruct solar_roi_overflows as (r & E & H & _); exists r; auto].
  eexists. eexists. split; [vm_compute; reflexivity|].
  split; [right; left; reflexivity|].
  split; [reflexivity|]. split; [reflexivity|].
  split; [intro H; vm_compute in H; discriminate H|].
  intros [H _]. cbn in H.
  assert (E : 47.1 == 0) by (apply H; apply Qle_refl).
  discriminate E.
Qed.

(** ** Scope totals *)

Ltac unfold_factors :=
  unfold FACTORS.diesel, FACTORS.petrol, FACTORS.natural_gas, FACTORS.coal,
    FACTORS.lpg, FACTORS.electricity, FACTORS.refrigerant_r22,
    FACTORS.refrigerant_r410a, FACTORS.refrigerant_r134a, FACTORS.steel,
    FACTORS.cement, FACTORS.aluminum, FACTORS.plastic, FACTORS.paper,
    FACTORS.glass, FACTORS.logistics_truck, FACTORS.logistics_ship,
    FACTORS.logistics_air, FACTORS.waste_landfill, FACTORS.waste_recycled in *.

Lemma scope2_total_value (data : ActivityInput) :
  scope2_total data = Ok (grid_electricity data * FACTORS.electricity).
Proof. reflexivity. Qed.

Lemma grid_electricity_nonneg (data : ActivityInput) :
  0 <= electricity data -> renewable data <= 100 -> 0 <= grid_electricity data.
Proof.
  intros He Hr. unfold grid_electricity. apply Qmult_le_0_compat; [exact He|].
  setoid_replace (renewable data / 100) with (renewable data * 0.01) by field. lra.
Qed.

Ltac split_fields H :=
  unfold nonneg_input, fields in H;
  repeat match type of H with
         | Forall _ (_ :: _) =>
             let H0 := fresh "Hf" in
             apply Forall_cons_iff in H; destruct H as [H0 H]
         end.

(** C1, as the code has it: when every field is non-negative and the
    renewable share is at most 100 percent, the three scope totals and the
    grand total are non-negative.  The code does not clamp the share, so a
    larger one makes Scope 2 negative. *)
Theorem scope_totals_nonneg (data : ActivityInput) :
  nonneg_input data -> renewable data <= 100 -> totals_nonneg data.
Proof.
  intros H Hr.
  pose proof (grid_electricity_nonneg data) as Hg.
  split_fields H. specialize (Hg Hf4 Hr).
  exists (grid_electricity data * FACTORS.electricity).
  split; [reflexivity|].
  assert (H1 : 0 <= scope1_total data).
  { unfold scope1_total, scope1, values, sum. cbn [map snd fold_left].
    unfold_factors. lra. }
  assert (H2 : 0 <= grid_electricity data * FACTORS.electricity).
  { unfold_factors. lra. }
  assert (H3 : 0 <= scope3_total data).
  { unfold scope3_total, scope3, values, sum. cbn [map snd fold_left].
    unfold_factors. lra. }
  repeat split; try assumption.
  unfold total. lra.
Qed.

Lemma scope_totals_nonneg_witness :
  nonneg_input (example_input 1) /\ renewable (example_input 1) <= 100 /\
  totals_nonneg (example_input 1).
Proof.
  assert (H1 : nonneg_input (example_input 1))
    by (unfold nonneg_input; repeat constructor; discriminate).
  assert (H2 : renewable (example_input 1) <= 100) by discriminate.
  split; [exact H1|]. split; [exact H2|]. exact (scope_totals_nonneg _ H1 H2).
Defined.

(** C1 as stated fails: every field of this input is non-negative, the
    renewable share is 200 percent, and Scope 2 and the grand total are
    -7.1. *)
Lemma scope2_negative_over_100_percent :
  nonneg_input over_renewable /\ ~ totals_nonneg over_renewable.
Proof.
  split.
  - unfold nonneg_input. repeat constructor; discriminate.
  - intros (s2 & E & _ & H & _). vm_compute in E. injection E as <-.
    revert H. apply Qlt_not_le. reflexivity.
Qed.

(** ** The per-source breakdown *)

Lemma dict_set_fresh {V : Type} (d : dict V) (k : string) (v : V) :
  ~ In k (keys d) -> dict_set d k v = d ++ [(k, v)].
Proof.
  induction d as [|[k' v'] d IH]; intro H; cbn [dict_set app].
  - reflexivity.
  - cbn [keys map fst In] in H.
    destruct (String.eqb k' k) eqn:E.
    + apply String.eqb_eq in E. tauto.
    + rewrite IH; [reflexivity | tauto].
Qed.

Lemma fold_dict_set_fresh {V W : Type} (f : string * W -> V) (l : list (string * W))
    (acc : dict V) :
  NoDup (keys acc ++ map fst l) ->
  fold_left (fun acc kv => dict_set acc (fst kv) (f kv)) l acc
  = acc ++ map (fun kv => (fst kv, f kv)) l.
Proof.
  revert acc. induction l as [|[k w] l IH]; intros acc H; cbn [fold_left map fst].
  - rewrite app_nil_r. reflexivity.
  - cbn [map fst] in H.
    rewrite dict_set_fresh.
    + rewrite IH.
      * rewrite <- app_assoc. reflexivity.
      * unfold keys. rewrite map_app, <- app_assoc. exact H.
    + apply NoDup_remove_2 in H. intro Hk. apply H, in_or_app. left. exact Hk.
Qed.

Lemma NoDup_keys_filter {V : Type} (f : string * V -> bool) (d : dict V) :
  NoDup (keys d) -> NoDup (keys (filter f d)).
Proof.
  induction d as [|kv d IH]; intro H; cbn [filter].
  - exact H.
  - cbn [keys map] in H. apply NoDup_cons_iff in H. destruct H as [Hk H].
    destruct (f kv); [|apply IH, H].
    cbn [keys map]. apply NoDup_cons; [|apply IH, H].
    intro Hin. apply Hk. unfold keys in *. apply in_map_iff in Hin.
    destruct Hin as (x & E & Hx). apply filter_In in Hx.
    apply in_map_iff. exists x. tauto.
Qed.

Lemma keys_map_value {V W : Type} (f : string * V -> W) (d : dict V) :
  keys (map (fun kv => (fst kv, f kv)) d) = keys d.
Proof.
  unfold keys. rewrite map_map. reflexivity.
Qed.

Lemma positive_rounded_closed (d : dict Q) :
  NoDup (keys d) -> positive_rounded d = rounded_positive d.
Proof.
  intro H. unfold positive_rounded.
  rewrite (fold_dict_set_fresh (fun kv => round (snd kv) 2)); [reflexivity|].
  cbn [keys map app]. apply (NoDup_keys_filter (fun kv => Qgtb (snd kv) 0)), H.
Qed.

Lemma dict_update_fresh {V : Type} (d e : dict V) :
  NoDup (keys d ++ keys e) -> dict_update d e = d ++ e.
Proof.
  intro H. unfold dict_update.
  rewrite (fold_dict_set_fresh (fun kv => snd kv)); [|exact H].
  f_equal. rewrite <- (map_id e) at 2. apply map_ext. intros [k v]. reflexivity.
Qed.

Lemma NoDup_categories (data : ActivityInput) : NoDup (keys (categories data)).
Proof.
  cbn. repeat (apply NoDup_cons; [cbn; intuition discriminate|]). apply NoDup_nil.
Qed.

Lemma by_source_closed (data : ActivityInput) :
  by_source data = rounded_positive (categories data).
Proof.
  pose proof (NoDup_keys_filter (fun kv => Qgtb (snd kv) 0) _ (NoDup_categories data)) as H.
  unfold categories in *. rewrite !filter_app in H. unfold keys in H. rewrite !map_app in H.
  assert (H1 := NoDup_app_remove_r _ _ H).
  unfold by_source.
  rewrite !positive_rounded_closed
    by (repeat (apply NoDup_cons; [cbn; intuition discriminate|]); apply NoDup_nil).
  unfold rounded_positive. rewrite !filter_app, !map_app.
  assert (H2 := H). rewrite app_assoc in H2. apply NoDup_app_remove_r in H2.
  assert (side : forall R R' : dict Q, NoDup (map fst R ++ map fst R') ->
                                      NoDup (keys R ++ keys R')) by (intros; assumption).
  rewrite (dict_update_fresh []); [|rewrite keys_map_value; exact H1].
  cbn [app].
  rewrite (dict_update_fresh (map _ (filter _ (scope1 data))));
    [|apply side; rewrite !map_map; cbn [fst]; exact H2].
  rewrite dict_update_fresh;
    [|apply side; rewrite map_app, !map_map; cbn [fst]; rewrite <- app_assoc; exact H].
  rewrite <- app_assoc. reflexivity.
Qed.

Lemma in_rounded_positive (d : dict Q) (k : string) (v : Q) :
  In (k, v) (rounded_positive d) <->
  exists v0, In (k, v0) d /\ 0 < v0 /\ v = round v0 2.
Proof.
  unfold rounded_positive. rewrite in_map_iff. split.
  - intros ([k' v0] & E & H). apply filter_In in H. destruct H as [H G].
    cbn [fst snd] in *. injection E as -> <-. apply Qgtb_gt in G.
    exists v0. auto.
  - intros (v0 & H & G & ->). exists (k, v0). split; [reflexivity|].
    apply filter_In. split; [exact H | apply Qgtb_gt; exact G].
Qed.

(** C3, as the code has it: [by_source] holds exactly the categories of
    scopes 1 to 3 whose value before rounding is above zero, each stored
    rounded to 2 decimals; a category whose value is zero is absent.  The
    test is made before the rounding, so a stored value can be 0. *)
Theorem by_source_positive_categories (data : ActivityInput) :
  by_source data = rounded_positive (categories data) /\
  (forall k v, In (k, v) (by_source data) <->
               exists v0, In (k, v0) (categories data) /\ 0 < v0 /\ v = round v0 2) /\
  (forall k, In k (keys (by_source data)) <->
             exists v0, In (k, v0) (categories data) /\ 0 < v0).
Proof.
  rewrite by_source_closed. split; [reflexivity|].
  split; [intros k v; apply in_rounded_positive|].
  intro k. unfold keys. rewrite in_map_iff. split.
  - intros ([k' v] & <- & H). apply in_rounded_positive in H.
    destruct H as (v0 & H & G & _). exists v0. auto.
  - intros (v0 & H & G). exists (k, round v0 2). split; [reflexivity|].
    apply in_rounded_positive. exists v0. auto.
Qed.

(** C3 as stated fails: one litre of diesel gives 0.00268 t, which is above
    zero and is stored as round(0.00268, 2) = 0. *)
Lemma by_source_stores_zero :
  In ("Diesel"%string, 0) (by_source one_litre) /\ ~ no_zero_entry (by_source one_litre).
Proof.
  assert (H : In ("Diesel"%string, 0) (by_source one_litre)) by (left; reflexivity).
  split; [exact H|]. intro N. apply (N _ _ H). reflexivity.
Qed.

(** ** Hotspots *)

Lemma hotspots_zero_total (k : string) (v : Q) (by_source : dict Q) :
  hotspots ((k, v) :: by_source) 0 = Raise ZeroDivisionError.
Proof. reflexivity. Qed.

(** C4: the percent of a hotspot is [v / total * 100] with no test of
    [total].  The form below gives Coal 2.86 and Refrigerants -2.86, so
    [by_source] holds Coal while the grand total is 0, and the request ends
    in ZeroDivisionError instead of reporting 0 percent. *)
Theorem hotspot_percent_unguarded :
  by_source (read_form float_decimal cancelling_form)
  = [("Coal"%string, round 2.86 2)] /\
  total (read_form float_decimal cancelling_form) 0 == 0 /\
  index float_decimal (post cancelling_form) = Raise ZeroDivisionError.
Proof.
  split; [vm_compute; reflexivity|]. split; [reflexivity|]. vm_compute. reflexivity.
Qed.

(** ** The worked example *)

(** C8: with electricity 10000, renewable 0, diesel 0 and every other
    quantity 0 (whatever the production figure), Scope 2 is
    10000 * 0.00071 = 7.1, [by_source] has the single key "Grid Electricity",
    and the scenarios are Energy Efficiency, Rooftop Solar, Green Energy
    Procurement and the combined one: EV Fleet, Waste Diversion and Material
    Efficiency are absent.  The same holds for the request that posts the
    three fields. *)
Theorem worked_example (production : Q) :
  let data := example_input production in
  (exists s2, scope2_total data = Ok s2 /\ s2 == 10000 * 0.00071 /\ s2 == 7.1 /\
     exists l,
       calculate_scenarios data (scope1 data) (scope2 data) (scope3 data)
                           (total data s2) = Ok l /\
       map name l = [ "Energy Efficiency (15% reduction)";
                      "Rooftop Solar (40% offset)";
                      "Green Energy Procurement (30% renewable)";
                      "Combined Optimization (All Measures)" ]%string /\
       emitted "Rooftop Solar" l /\ emitted "Energy Efficiency" l /\
       emitted "Green Energy Procurement" l /\
       ~ emitted "EV Fleet" l /\ ~ emitted "Waste Diversion" l /\
       ~ emitted "Material Efficiency" l) /\
  keys (by_source data) = ["Grid Electricity"%string] /\
  (exists r, index float_decimal (post example_form) = Ok (Some r) /\
     Result.scope2 r == 7.1 /\
     keys (Result.by_source r) = ["Grid Electricity"%string] /\
     map name (Result.scenarios r)
     = [ "Energy Efficiency (15% reduction)";
         "Rooftop Solar (40% offset)";
         "Green Energy Procurement (30% renewable)";
         "Combined Optimization (All Measures)" ]%string).
Proof.
  cbv zeta. split; [|split].
  - eexists. split; [reflexivity|]. split; [reflexivity|]. split; [reflexivity|].
    eexists. split; [vm_compute; reflexivity|]. split; [reflexivity|].
    split; [eexists; split; [right; left; reflexivity | reflexivity]|].
    split; [eexists; split; [left; reflexivity | reflexivity]|].
    split; [eexists; split; [right; right; left; reflexivity | reflexivity]|].
    repeat split; intros (s & Hin & Hp);
      destruct Hin as [<-|[<-|[<-|[<-|[]]]]]; discriminate Hp.
  - reflexivity.
  - eexists. split; [vm_compute; reflexivity|]. repeat split.
Qed.

(** ** Input coercion *)

Lemma safe_float_default (float : string -> option Q) (value : option string)
    (default : Q) :
  unusable float value -> safe_float float value default = default.
Proof.
  intros [->|[->|(s & -> & H)]]; cbn [safe_float]; try reflexivity.
  rewrite H. destruct (String.eqb s ""); reflexivity.
Qed.

(** C9: [safe_float] is a total function, so coercion cannot fail a
    request.  An absent, empty or unparseable value gives the default, a
    parseable one its number; [index] reads every field with default 0 and
    production with default 1. *)
Theorem coercion_never_fails (float : string -> option Q) (form : dict string) :
  (forall value default,
      unusable float value -> safe_float float value default = default) /\
  (forall s x default,
      s <> ""%string -> float s = Some x -> safe_float float (Some s) default = x) /\
  (forall k v, In (k, v) (data_items (read_form float form)) ->
      v = safe_float float (dict_get form k) (field_default k)) /\
  (forall k v, In (k, v) (data_items (read_form float form)) ->
      unusable float (dict_get form k) -> v = field_default k).
Proof.
  assert (Hread : forall k v, In (k, v) (data_items (read_form float form)) ->
                    v = safe_float float (dict_get form k) (field_default k)).
  { intros k v H. cbn [data_items In] in H.
    repeat (destruct H as [H|H]; [injection H as <- <-; reflexivity|]).
    destruct H. }
  split; [apply safe_float_default|]. split; [|split].
  - intros s x default Hs Hx. cbn [safe_float].
    apply String.eqb_neq in Hs. rewrite Hs, Hx. reflexivity.
  - exact Hread.
  - intros k v H U. rewrite (Hread k v H). apply safe_float_default, U.
Qed.

Lemma coercion_never_fails_witness :
  safe_float float_decimal (Some "12 kg"%string) 0 = 0 /\
  safe_float float_decimal (Some "1500"%string) 0 = 1500 /\
  production (read_form float_decimal [("production", "n/a")]%string) = 1.
Proof.
  destruct (coercion_never_fails float_decimal [("production", "n/a")]%string)
    as (H1 & H2 & _ & H4).
  split; [|split].
  - apply H1. right. right. exists "12 kg"%string. split; reflexivity.
  - apply H2; [discriminate | reflexivity].
  - apply (H4 "production"%string).
    + cbn [data_items In]. repeat (first [left; reflexivity | right]).
    + right. right. exists "n/a"%string. split; reflexivity.
Defined.

(** ** When the request handler returns *)

Lemma list_comprehension_ok {A B : Type} (f : A -> result B) (g : A -> B) (l : list A) :
  (forall x, In x l -> f x = Ok (g x)) -> list_comprehension f l = Ok (map g l).
Proof.
  induction l as [|x l IH]; intro H; cbn [list_comprehension map].
  - reflexivity.
  - rewrite (H x (or_introl eq_refl)). cbn [bind].
    rewrite IH; [reflexivity|]. intros y Hy. apply H. right. exact Hy.
Qed.

Lemma hotspots_nonzero_total (by_source : dict Q) (total : Q) :
  ~ total == 0 ->
  hotspots by_source total
  = Ok (firstn 5 (sorted_reverse Qltb Hotspot.emission
                    (map (hotspot_entry total) by_source))).
Proof.
  intro H. unfold hotspots.
  rewrite (list_comprehension_ok _ (hotspot_entry total)); [reflexivity|].
  intros kv _. unfold pydiv. destruct (Qeq_bool total 0) eqn:E.
  - apply Qeq_bool_eq in E. contradiction.
  - reflexivity.
Qed.

Lemma hotspots_raise (by_source : dict Q) (total : Q) :
  total == 0 -> by_source <> [] -> hotspots by_source total = Raise ZeroDivisionError.
Proof.
  intros H Hne. destruct by_source as [|kv by_source]; [contradiction|].
  unfold hotspots, list_comprehension, pydiv.
  rewrite (Qeq_eq_bool _ _ H). reflexivity.
Qed.

Lemma combined_scenario_found (l : list Scenario) (c : Scenario) :
  Forall (fun s => is_combined s = None) l -> is_combined c = Some true ->
  combined_scenario (l ++ [c]) = Ok c.
Proof.
  intros Hl Hc. unfold combined_scenario. rewrite filter_app.
  replace (filter _ l) with (@nil Scenario).
  - cbn [filter app]. rewrite Hc. reflexivity.
  - symmetry. induction Hl as [|s l Hs _ IH]; [reflexivity|].
    cbn [filter]. rewrite Hs. exact IH.
Qed.

(** [calculate] up to the hotspots: nothing before them raises. *)
Lemma calculate_until_hotspots (data : ActivityInput) :
  exists finish : list Hotspot.t -> Result.t,
    calculate data
    = (hs <- hotspots (by_source data) (grand_total data) ;; Ok (finish hs)).
Proof.
  unfold calculate. rewrite scope2_total_value. cbn [bind].
  rewrite (calculate_scenarios_shape _ _ _ _ _ _ (getitem_raw_materials data)).
  cbn [bind]. rewrite guarded_div. cbn [bind].
  rewrite combined_scenario_found;
    [| apply list_sort_not_combined, individual_not_combined | reflexivity].
  cbn [bind]. eexists (fun hs => _). reflexivity.
Qed.

(** The only failure of [calculate]: a zero grand total with a non-empty
    breakdown, where the percent of the first hotspot divides by zero. *)
Lemma calculate_fails_exactly_on_zero_total (data : ActivityInput) :
  (grand_total data == 0 /\ by_source data <> [] /\
   calculate data = Raise ZeroDivisionError) \/
  ((~ grand_total data == 0 \/ by_source data = []) /\
   exists r, calculate data = Ok r).
Proof.
  destruct (calculate_until_hotspots data) as [finish E]. rewrite E.
  destruct (Qeq_bool (grand_total data) 0) eqn:Z.
  - apply Qeq_bool_eq in Z. destruct (by_source data) as [|kv bs] eqn:B.
    + right. split; [right; reflexivity|]. eexists. reflexivity.
    + left. split; [exact Z|]. split; [discriminate|].
      rewrite hotspots_raise; [reflexivity | exact Z | discriminate].
  - apply Qeq_bool_neq in Z. right. split; [left; exact Z|].
    rewrite (hotspots_nonzero_total _ _ Z). eexists. reflexivity.
Qed.

Lemma category_below_total (data : ActivityInput) (k : string) (v0 : Q) :
  nonneg_input data -> renewable data <= 100 ->
  In (k, v0) (categories data) -> v0 <= grand_total data.
Proof.
  intros H Hr Hin.
  pose proof (grid_electricity_nonneg data) as Hg.
  split_fields H. specialize (Hg Hf4 Hr).
  unfold grand_total, total, scope1_total, scope3_total, values, sum.
  unfold categories, scope1, scope2, scope3 in *.
  cbn [map snd fold_left app In] in *.
  unfold_factors.
  repeat (destruct Hin as [Hin|Hin]; [injection Hin as <- <-; lra|]).
  destruct Hin.
Qed.

(** With non-negative quantities and a renewable share of at most 100
    percent the handler returns: a breakdown entry makes the total
    positive. *)
Lemma calculate_returns (data : ActivityInput) :
  nonneg_input data -> renewable data <= 100 -> exists r, calculate data = Ok r.
Proof.
  intros H Hr.
  destruct (calculate_fails_exactly_on_zero_total data)
    as [(Z & B & _)|[_ R]]; [|exact R].
  exfalso. destruct (by_source data) as [|[k v] bs] eqn:E; [contradiction|].
  assert (Hin : In (k, v) (rounded_positive (categories data))).
  { rewrite <- by_source_closed, E. left. reflexivity. }
  apply in_rounded_positive in Hin. destruct Hin as (v0 & Hc & Hpos & _).
  pose proof (category_below_total data k v0 H Hr Hc) as Hle.
  rewrite Z in Hle. apply (Qlt_not_le _ _ Hpos Hle).
Qed.

(** ** Further runs *)

(** When no block applies the result is the combined scenario alone, with
    zero figures. *)
Example only_combined_when_nothing_applies :
  exists c,
    calculate_scenarios nothing_applies (scope1 nothing_applies)
      (scope2 nothing_applies) (scope3 nothing_applies) 0 = Ok [c] /\
    is_combined c = Some true /\ all_zero c /\ payback_years c == 0.
Proof.
  eexists. split; [vm_compute; reflexivity|]. repeat split.
Qed.

(** An empty form: totals 0, intensity 0, nothing by source, no hotspot,
    Green Energy Procurement and the combined scenario. *)
Example empty_form_run :
  exists r,
    index float_decimal (post []) = Ok (Some r) /\
    Result.total r == 0 /\ Result.intensity r == 0 /\
    Result.by_source r = [] /\ Result.hotspots r = [] /\
    map name (Result.scenarios r)
    = [ "Green Energy Procurement (30% renewable)";
        "Combined Optimization (All Measures)" ]%string.
Proof.
  eexists. split; [vm_compute; reflexivity|]. repeat split.
Qed.

(** A GET request computes nothing. *)
Example get_request (float : string -> option Q) (fields : dict string) :
  index float {| method := "GET"; form := fields |} = Ok None.
Proof. reflexivity. Qed.

(** * Further properties of the request handler *)

Lemma calculate_closed (data : ActivityInput) :
  calculate data
  = (hs <- hotspots (by_source data) (grand_total data) ;; Ok (result_record data hs)).
Proof.
  unfold calculate. rewrite scope2_total_value. cbn [bind].
  rewrite (calculate_scenarios_shape _ _ _ _ _ _ (getitem_raw_materials data)).
  cbn [bind]. rewrite guarded_div. cbn [bind].
  rewrite combined_scenario_found;
    [| apply list_sort_not_combined, individual_not_combined | reflexivity].
  cbn [bind]. reflexivity.
Qed.

Lemma calculate_inv (data : ActivityInput) (r : Result.t) :
  calculate data = Ok r ->
  exists hs, hotspots (by_source data) (grand_total data) = Ok hs /\
             r = result_record data hs.
Proof.
  rewrite calculate_closed.
  destruct (hotspots (by_source data) (grand_total data)) as [hs|e]; cbn [bind];
    intro H; [|discriminate H].
  injection H as <-. exists hs. split; reflexivity.
Qed.


Lemma round_nonneg (x : Q) (n : nat) : 0 <= x -> 0 <= round x n.
Proof. apply (round_lower 0). Qed.

Lemma guarded_nonneg (a b : Q) : 0 <= a -> 0 <= guarded a b.
Proof.
  intro Ha. unfold guarded. destruct (Qgtb b 0) eqn:E; [|apply Qle_refl].
  apply Qgtb_gt in E. apply Qle_shift_div_l; [exact E|]. lra.
Qed.

Lemma grand_total_nonneg (data : ActivityInput) :
  nonneg_input data -> renewable data <= 100 ->
  0 <= scope1_total data /\ 0 <= grid_electricity data * FACTORS.electricity /\
  0 <= scope3_total data /\ 0 <= grand_total data.
Proof.
  intros H Hr.
  pose proof (grid_electricity_nonneg data) as Hg.
  split_fields H. specialize (Hg Hf4 Hr).
  assert (H1 : 0 <= scope1_total data).
  { unfold scope1_total, scope1, values, sum. cbn [map snd fold_left].
    unfold_factors. lra. }
  assert (H2 : 0 <= grid_electricity data * FACTORS.electricity).
  { unfold_factors. lra. }
  assert (H3 : 0 <= scope3_total data).
  { unfold scope3_total, scope3, values, sum. cbn [map snd fold_left].
    unfold_factors. lra. }
  repeat split; try assumption.
  unfold grand_total, total. lra.
Qed.

(** X2: with non-negative quantities and a renewable share of at most 100
    percent, the figures of a returned result (the three scope totals, the
    grand total, the intensity and the carbon cost, all after rounding) are
    non-negative. *)
Theorem displayed_figures_nonneg (data : ActivityInput) (r : Result.t) :
  nonneg_input data -> renewable data <= 100 -> calculate data = Ok r ->
  0 <= Result.scope1 r /\ 0 <= Result.scope2 r /\ 0 <= Result.scope3 r /\
  0 <= Result.total r /\ 0 <= Result.intensity r /\ 0 <= Result.carbon_cost r.
Proof.
  intros H Hr E.
  destruct (grand_total_nonneg data H Hr) as (H1 & H2 & H3 & Ht).
  apply calculate_inv in E. destruct E as (hs & _ & ->).
  cbn [result_record Result.scope1 Result.scope2 Result.scope3 Result.total
       Result.intensity Result.carbon_cost].
  repeat split; apply round_nonneg; try assumption.
  - apply guarded_nonneg, Ht.
  - unfold CARBON_PRICE. lra.
Qed.

Lemma displayed_figures_nonneg_witness :
  exists r, calculate (example_input 4) = Ok r /\
    0 <= Result.scope1 r /\ 0 <= Result.scope2 r /\ 0 <= Result.scope3 r /\
    0 <= Result.total r /\ 0 <= Result.intensity r /\ 0 <= Result.carbon_cost r.
Proof.
  destruct (calculate (example_input 4)) as [r|e] eqn:E;
    [|vm_compute in E; discriminate E].
  exists r. split; [reflexivity|].
  apply (displayed_figures_nonneg (example_input 4) r); [| discriminate | exact E].
  unfold nonneg_input. repeat constructor; discriminate.
Defined.

(** ** Rounding error and the displayed figures *)




Lemma decimals_scale (n : nat) (x : Q) (k : Z) :
  decimals n x -> decimals n (x * inject_Z k).
Proof.
  intros [z Hz]. exists (z * k)%Z. rewrite Hz.
  unfold Qeq, Qmult, inject_Z. cbn [Qnum Qden]. rewrite Pos.mul_1_r. reflexivity.
Qed.



(** X4: the intensity is the grand total divided by the production, rounded
    to 4 decimals, when the production is above zero, and 0 otherwise: a
    zero or negative production is reported as intensity 0 instead of
    dividing. *)
Theorem intensity_guarded (data : ActivityInput) (r : Result.t) :
  calculate data = Ok r ->
  (0 < production data ->
   Result.intensity r = round (grand_total data / production data) 4) /\
  (production data <= 0 -> Result.intensity r = 0).
Proof.
  intro E. apply calculate_inv in E. destruct E as (hs & _ & ->).
  cbn [result_record Result.intensity]. unfold guarded. split; intro H.
  - apply Qgtb_gt in H. rewrite H. reflexivity.
  - apply Qgtb_le in H. rewrite H. reflexivity.
Qed.

Lemma intensity_guarded_witness :
  0 < production (example_input 4) /\
  exists r, calculate (example_input 4) = Ok r /\
    Result.intensity r = round (grand_total (example_input 4) / 4) 4.
Proof.
  split; [reflexivity|].
  destruct (calculate (example_input 4)) as [r|e] eqn:E;
    [|vm_compute in E; discriminate E].
  exists r. split; [reflexivity|].
  apply (intensity_guarded _ _ E). reflexivity.
Defined.

(** X5: the ten-year projection is exactly ten times the annual savings and
    the carbon reduction of the combined scenario, which is the last
    scenario of the list; rounding the product changes nothing. *)
Theorem ten_year_projection (data : ActivityInput) (r : Result.t) :
  calculate data = Ok r ->
  exists l c,
    Result.scenarios r = l ++ [c] /\ is_combined c = Some true /\
    Result.ten_year_savings r == 10 * annual_savings c /\
    Result.ten_year_reduction r == 10 * carbon_reduction c.
Proof.
  intro E. apply calculate_inv in E. destruct E as (hs & _ & ->).
  eexists. eexists. split; [reflexivity|]. split; [reflexivity|].
  cbn [result_record Result.ten_year_savings Result.ten_year_reduction
       combined_row annual_savings carbon_reduction].
  split; (rewrite round_decimals; [ring|]);
    apply (decimals_scale 2 _ 10), decimals_round.
Qed.

Lemma ten_year_projection_witness :
  exists r l c, calculate (example_input 1) = Ok r /\
    Result.scenarios r = l ++ [c] /\ is_combined c = Some true /\
    Result.ten_year_savings r == 10 * annual_savings c /\
    Result.ten_year_reduction r == 10 * carbon_reduction c.
Proof.
  destruct (calculate (example_input 1)) as [r|e] eqn:E;
    [|vm_compute in E; discriminate E].
  destruct (ten_year_projection _ _ E) as (l & c & H).
  exists r, l, c. split; [reflexivity | exact H].
Defined.

(** ** Breakdown by source and carbon costs *)

Lemma NoDup_keys_by_source (data : ActivityInput) : NoDup (keys (by_source data)).
Proof.
  rewrite by_source_closed. unfold rounded_positive. rewrite keys_map_value.
  apply NoDup_keys_filter, NoDup_categories.
Qed.

Lemma by_source_decimals (data : ActivityInput) (k : string) (v : Q) :
  In (k, v) (by_source data) -> decimals 2 v.
Proof.
  rewrite by_source_closed. intro H. apply in_rounded_positive in H.
  destruct H as (v0 & _ & _ & ->). apply decimals_round.
Qed.

(** X6: the carbon costs by source have the keys of [by_source] in the same
    order, and each cost is exactly the stored (rounded) emission times the
    carbon price of 2500: the cost is computed from the rounded emission,
    and its own rounding changes nothing. *)
Theorem carbon_costs_follow_by_source (data : ActivityInput) :
  keys (carbon_costs_by_source (by_source data)) = keys (by_source data) /\
  (forall k c, In (k, c) (carbon_costs_by_source (by_source data)) ->
     exists v, In (k, v) (by_source data) /\ c == 2500 * v) /\
  (forall k v, In (k, v) (by_source data) ->
     exists c, In (k, c) (carbon_costs_by_source (by_source data)) /\ c == 2500 * v).
Proof.
  assert (E : carbon_costs_by_source (by_source data)
              = map (fun kv => (fst kv, round (snd kv * CARBON_PRICE) 2)) (by_source data)).
  { unfold carbon_costs_by_source.
    rewrite (fold_dict_set_fresh (fun kv => round (snd kv * CARBON_PRICE) 2));
      [reflexivity|].
    cbn [keys map app]. apply NoDup_keys_by_source. }
  assert (Hc : forall k v, In (k, v) (by_source data) ->
                 round (v * CARBON_PRICE) 2 == 2500 * v).
  { intros k v H. rewrite round_decimals.
    - unfold CARBON_PRICE. ring.
    - apply (decimals_scale 2 v 2500), (by_source_decimals data k), H. }
  rewrite E. split; [apply keys_map_value|]. split.
  - intros k c H. apply in_map_iff in H. destruct H as ([k' v] & Ekc & H).
    cbn [fst snd] in Ekc. injection Ekc as -> <-.
    exists v. split; [exact H | apply (Hc k), H].
  - intros k v H. exists (round (v * CARBON_PRICE) 2). split; [|apply (Hc k), H].
    apply in_map_iff. exists (k, v). split; [reflexivity | exact H].
Qed.

(** X7: the Scope 2 category "Renewable" is built with the value 0 for every
    input, so it is never an entry of [by_source]; the entries come from the
    other ten categories and no key occurs twice. *)
Theorem renewable_never_by_source (data : ActivityInput) :
  ~ In "Renewable"%string (keys (by_source data)) /\
  NoDup (keys (by_source data)) /\
  incl (keys (by_source data))
       [ "Diesel"; "Petrol"; "Natural Gas"; "Coal"; "LPG"; "Refrigerants";
         "Grid Electricity"; "Raw Materials"; "Logistics"; "Waste" ]%string.
Proof.
  assert (H : forall k, In k (keys (by_source data)) ->
                exists v0, In (k, v0) (categories data) /\ 0 < v0).
  { intros k Hk. unfold keys in Hk. apply in_map_iff in Hk.
    destruct Hk as ([k' v] & <- & Hk). rewrite by_source_closed in Hk.
    apply in_rounded_positive in Hk. destruct Hk as (v0 & Hc & Hp & _).
    exists v0. auto. }
  split; [|split; [apply NoDup_keys_by_source|]].
  - intro Hk. destruct (H _ Hk) as (v0 & Hc & Hp).
    unfold categories, scope1, scope2, scope3 in Hc. cbn [app In] in Hc.
    repeat (destruct Hc as [Hc|Hc]; [try discriminate Hc|]); [|destruct Hc].
    injection Hc as <-. apply (Qlt_irrefl _ Hp).
  - intros k Hk. destruct (H _ Hk) as (v0 & Hc & Hp).
    unfold categories, scope1, scope2, scope3 in Hc. cbn [app In] in Hc.
    repeat (destruct Hc as [Hc|Hc];
            [injection Hc as <- <-;
             first [ exfalso; apply (Qlt_irrefl _ Hp)
                   | cbn [In]; repeat (first [left; reflexivity | right]) ] |]).
    destruct Hc.
Qed.

(** ** Hotspots *)

Lemma Qltb_asym (a b : Q) : Qltb a b = true -> Qltb b a = false.
Proof.
  intro H. apply Qltb_lt in H. apply Qltb_ge. apply Qlt_le_weak, H.
Qed.

Lemma Qltb_trans (a b c : Q) : Qltb a b = true -> Qltb b c = true -> Qltb a c = true.
Proof.
  intros H1 H2. apply Qltb_lt in H1. apply Qltb_lt in H2. apply Qltb_lt.
  eapply Qlt_trans; eassumption.
Qed.

Lemma StronglySorted_snoc {A : Type} (R : A -> A -> Prop) (l : list A) (x : A) :
  StronglySorted R l -> Forall (fun y => R y x) l -> StronglySorted R (l ++ [x]).
Proof.
  induction 1 as [|y l Hs IH Hy]; intro Hx; cbn [app].
  - constructor; constructor.
  - apply Forall_cons_iff in Hx. destruct Hx as [Hyx Hx].
    constructor; [apply IH, Hx|].
    apply Forall_app. split; [exact Hy | constructor; [exact Hyx | constructor]].
Qed.

Lemma StronglySorted_rev {A : Type} (R : A -> A -> Prop) (l : list A) :
  StronglySorted R l -> StronglySorted (fun a b => R b a) (rev l).
Proof.
  induction 1 as [|x l Hs IH Hx]; cbn [rev].
  - constructor.
  - apply StronglySorted_snoc; [exact IH|].
    apply Forall_rev. exact Hx.
Qed.

Lemma sorted_reverse_perm {A K : Type} (lt : K -> K -> bool) (key : A -> K) (l : list A) :
  Permutation (sorted_reverse lt key l) l.
Proof.
  unfold sorted_reverse. rewrite <- Permutation_rev, list_sort_perm.
  symmetry. apply Permutation_rev.
Qed.

Lemma sorted_reverse_descending (l : list Hotspot.t) :
  StronglySorted emission_ge (sorted_reverse Qltb Hotspot.emission l).
Proof.
  unfold sorted_reverse.
  pose proof (list_sort_sorted Qltb Hotspot.emission Qltb_asym Qltb_trans (rev l)) as H.
  apply StronglySorted_rev in H. revert H. apply StronglySorted_ind.
  - constructor.
  - intros a l' _ IH Ha. constructor; [exact IH|].
    revert Ha. apply Forall_impl. intros b Hb.
    unfold precedes in Hb. apply Qltb_ge in Hb. exact Hb.
Qed.

(** X8: when the grand total is not zero the hotspot list is returned and
    holds the five entries of the breakdown with the largest emissions (all
    of them when there are at most five), in non-increasing order of
    emission: the sorted entries are a rearrangement of one entry per
    source, each with percent = emission / total * 100, and the list is
    their first five. *)
Theorem hotspots_top_five (by_source : dict Q) (total : Q) :
  ~ total == 0 ->
  exists hs rest,
    hotspots by_source total = Ok hs /\
    length hs = Nat.min 5 (length by_source) /\
    Permutation (hs ++ rest) (map (hotspot_entry total) by_source) /\
    StronglySorted emission_ge (hs ++ rest).
Proof.
  intro H.
  set (entries := map (hotspot_entry total) by_source).
  exists (firstn 5 (sorted_reverse Qltb Hotspot.emission entries)),
         (skipn 5 (sorted_reverse Qltb Hotspot.emission entries)).
  split; [apply hotspots_nonzero_total, H|].
  split.
  - rewrite length_firstn.
    rewrite (Permutation_length (sorted_reverse_perm Qltb Hotspot.emission entries)).
    unfold entries. rewrite length_map. reflexivity.
  - rewrite firstn_skipn. split; [apply sorted_reverse_perm|].
    apply sorted_reverse_descending.
Qed.

Lemma hotspots_top_five_witness :
  exists hs rest,
    hotspots [("Diesel", 2.68); ("Coal", 28.6); ("Waste", 0.5)]%string 31.78 = Ok hs /\
    length hs = 3%nat /\
    Permutation (hs ++ rest)
      (map (hotspot_entry 31.78) [("Diesel", 2.68); ("Coal", 28.6); ("Waste", 0.5)]%string) /\
    StronglySorted emission_ge (hs ++ rest).
Proof.
  apply (hotspots_top_five [("Diesel", 2.68); ("Coal", 28.6); ("Waste", 0.5)]%string 31.78).
  discriminate.
Defined.

(** ** The scenario generator on an arbitrary Scope 3 dict *)


(** ** Closed forms of the financial figures *)

Lemma round_half_even_upper (z : Z) (y : Q) :
  y <= inject_Z z -> (round_half_even y <= z)%Z.
Proof.
  intro H.
  assert (Hf : (Qfloor y <= z)%Z).
  { rewrite <- (Qfloor_Z z). apply Qfloor_resp_le, H. }
  assert (Hstep : 1 # 2 <= y - inject_Z (Qfloor y) -> (Qfloor y + 1 <= z)%Z).
  { intro Hr. apply Z.le_succ_l. rewrite Zlt_Qlt. lra. }
  unfold round_half_even.
  destruct (Qltb (y - inject_Z (Qfloor y)) (1 # 2)) eqn:E1; [exact Hf|].
  apply Qltb_ge in E1.
  destruct (Qltb (1 # 2) (y - inject_Z (Qfloor y))); [apply Hstep, E1|].
  destruct (Z.even (Qfloor y)); [exact Hf | apply Hstep, E1].
Qed.

(** Rounding does not go above an integer that bounds the value. *)
Lemma round_upper (z : Z) (x : Q) (n : nat) : x <= inject_Z z -> round x n <= inject_Z z.
Proof.
  intro H. unfold round. rewrite Qred_correct.
  set (p := pow10 n).
  assert (Hf : (round_half_even (x * inject_Z (Zpos p)) <= z * Zpos p)%Z).
  { apply round_half_even_upper. rewrite inject_Z_mult.
    apply Qmult_le_compat_r; [exact H|]. unfold Qle; simpl; lia. }
  unfold Qle, inject_Z. cbn [Qnum Qden]. rewrite Z.mul_1_r. exact Hf.
Qed.


Lemma guarded_pos (a b : Q) : 0 < b -> guarded a b = a / b.
Proof.
  intro H. apply Qgtb_gt in H. unfold guarded. rewrite H. reflexivity.
Qed.

(** A scenario of the result with a given title is the row of that title,
    and the condition of the row holds. *)
Ltac pick_row Hin Hp G :=
  apply in_result in Hin; rewrite in_individual in Hin;
  destruct Hin as [[[G ->]|[[G ->]|[[G ->]|[[G ->]|[[G ->]|[G ->]]]]]]| ->];
  try by_name Hp; clear Hp.








Lemma additional_renewable_pct_pos (data : ActivityInput) :
  renewable data < 50 -> 0 < additional_renewable_pct data.
Proof.
  intro H. unfold additional_renewable_pct, target_renewable, min.
  destruct (Qltb (renewable data + 30) 50); lra.
Qed.


Lemma renewable_emission_reduction_linear (data : ActivityInput) :
  renewable_emission_reduction data
  == 0.0000071 * (electricity data * additional_renewable_pct data).
Proof.
  unfold renewable_emission_reduction, additional_renewable_kwh, FACTORS.electricity.
  field.
Qed.


(** ** Signs of the scenario figures *)

Lemma individual_reductions_nonneg (data : ActivityInput) :
  0 <= diesel data -> 0 <= petrol data -> 0 <= electricity data ->
  Forall (fun s => 0 <= carbon_reduction s /\ 0 <= investment s)
         (individual data (raw_materials data)).
Proof.
  intros Hd Hp He. apply Forall_forall. intros s H. apply in_individual in H.
  destruct H as [[G ->]|[[G ->]|[[G ->]|[[G ->]|[[G ->]|[G ->]]]]]];
    cbn [carbon_reduction investment solar_row ev_row efficiency_row waste_row
         green_row material_row].
  - split; apply round_nonneg.
    + unfold_figures. setoid_replace (electricity data * ((40 # 1) / 100) * 0.00071)
        with (0.000284 * electricity data) by field. lra.
    + rewrite solar_investment_linear. lra.
  - split; apply round_nonneg.
    + unfold ev_emission_reduction, ev_transition_pct, FACTORS.diesel, FACTORS.petrol,
        inject_Z.
      setoid_replace ((diesel data * 0.00268 + petrol data * 0.00231) * (30 # 1) / 100)
        with (0.000804 * diesel data + 0.000693 * petrol data) by field. lra.
    + unfold ev_investment. change 0 with (inject_Z 0). rewrite <- Zle_Qle.
      unfold vehicles_to_replace. lia.
  - split; apply round_nonneg.
    + unfold_figures. setoid_replace (electricity data * (15 # 1) / 100 * 0.00071)
        with (0.0001065 * electricity data) by field. lra.
    + unfold efficiency_investment. lra.
  - apply Qgtb_gt in G. split; apply round_nonneg.
    + unfold_figures.
      setoid_replace (waste_landfill data * (50 # 1) / 100 * (0.50 - 0.10))
        with (0.2 * waste_landfill data) by field. lra.
    + unfold waste_investment. lra.
  - apply Qltb_lt in G. split; [|apply Qle_refl]. apply round_nonneg.
    pose proof (additional_renewable_pct_pos data G) as Hpct.
    rewrite renewable_emission_reduction_linear.
    assert (Hk : 0 <= electricity data * additional_renewable_pct data)
      by (apply Qmult_le_0_compat; [exact He | apply Qlt_le_weak, Hpct]).
    lra.
  - apply Qgtb_gt in G. split; apply round_nonneg.
    + unfold material_emission_reduction, material_efficiency_pct, inject_Z.
      setoid_replace (raw_materials data * (10 # 1) / 100)
        with (0.1 * raw_materials data) by field. lra.
    + unfold material_investment. discriminate.
Qed.

(** X14: with non-negative diesel, petrol and electricity no scenario of
    the result has a negative carbon reduction or a negative investment,
    the combined scenario included; annual savings can be negative. *)
Theorem reductions_and_investments_nonneg
    (data : ActivityInput) (scope1 scope2 : dict Q) (total_emissions : Q) :
  0 <= diesel data -> 0 <= petrol data -> 0 <= electricity data ->
  exists l,
    calculate_scenarios data scope1 scope2 (scope3 data) total_emissions = Ok l /\
    forall s, In s l -> 0 <= carbon_reduction s /\ 0 <= investment s.
Proof.
  intros Hd Hp He.
  pose proof (individual_reductions_nonneg data Hd Hp He) as Hind.
  eexists. split; [apply calculate_scenarios_shape, getitem_raw_materials|].
  intros s Hin. apply in_result in Hin. destruct Hin as [Hin| ->].
  - rewrite Forall_forall in Hind. apply Hind, Hin.
  - cbn [carbon_reduction investment combined_row]. split; apply round_nonneg.
    + unfold total_carbon_reduction. apply sum_nonneg.
      apply Forall_forall. intros x Hx. apply in_map_iff in Hx.
      destruct Hx as (s & <- & Hs). rewrite Forall_forall in Hind. apply Hind, Hs.
    + unfold total_investment. apply sum_nonneg.
      apply Forall_forall. intros x Hx. apply in_map_iff in Hx.
      destruct Hx as (s & <- & Hs). apply filter_In in Hs. destruct Hs as [_ Hs].
      apply Qgtb_gt in Hs. apply Qlt_le_weak, Hs.
Qed.

Lemma reductions_and_investments_nonneg_witness :
  exists l,
    calculate_scenarios (example_input 1) [] [] (scope3 (example_input 1)) 0 = Ok l /\
    forall s, In s l -> 0 <= carbon_reduction s /\ 0 <= investment s.
Proof.
  apply reductions_and_investments_nonneg; discriminate.
Defined.

(** X15: the scenarios are built in the order Rooftop Solar, EV Fleet,
    Energy Efficiency, Waste Diversion, Green Energy Procurement, Material
    Efficiency, and the sort is stable: of two emitted scenarios, the one
    built first stays first unless the other has a strictly larger ROI.  In
    particular scenarios of equal ROI appear in the order of construction. *)
Theorem ties_keep_construction_order
    (data : ActivityInput) (scope1 scope2 : dict Q) (total_emissions : Q) :
  exists l c,
    calculate_scenarios data scope1 scope2 (scope3 data) total_emissions = Ok (l ++ [c]) /\
    Permutation l (individual data (raw_materials data)) /\
    forall a b,
      appears_before a b (individual data (raw_materials data)) ->
      roi_percent b <= roi_percent a -> appears_before a b l.
Proof.
  eexists. eexists. split; [apply calculate_scenarios_shape, getitem_raw_materials|].
  split; [apply list_sort_perm|].
  intros a b Hab Hroi.
  apply (list_sort_stable key_lt sort_key key_lt_asym key_lt_trans key_lt_between);
    [exact Hab|].
  pose proof (individual_not_combined data (raw_materials data)) as Hn.
  rewrite Forall_forall in Hn.
  destruct Hab as (l1 & l2 & l3 & E).
  assert (Ha : is_combined a = None).
  { apply Hn. rewrite E. apply in_or_app. right. left. reflexivity. }
  assert (Hb : is_combined b = None).
  { apply Hn. rewrite E. apply in_or_app. right. right.
    apply in_or_app. right. left. reflexivity. }
  unfold key_lt, sort_key, get_is_combined. rewrite Ha, Hb. cbn.
  destruct (Qeq_bool (- roi_percent b) (- roi_percent a)); [reflexivity|].
  apply Qltb_ge. lra.
Qed.

(** ** The EV fleet *)

Lemma int_floor (q : Q) : 0 <= q -> int q = Qfloor q.
Proof.
  intro H. unfold int, Qfloor. destruct q as [n d]. cbn [Qnum Qden].
  apply Z.quot_div_nonneg; [|reflexivity].
  unfold Qle in H. cbn in H. lia.
Qed.

Lemma vehicles_bound (data : ActivityInput) :
  0 <= diesel data -> 0 <= petrol data ->
  1 <= inject_Z (vehicles_to_replace data) /\
  diesel data + petrol data < 1000 * (inject_Z (vehicles_to_replace data) + 1).
Proof.
  intros Hd Hp. unfold vehicles_to_replace.
  set (q := (diesel data + petrol data) / 1000).
  assert (Hq : 0 <= q) by (apply Qle_shift_div_l; [reflexivity | lra]).
  assert (Eq : diesel data + petrol data == 1000 * q) by (unfold q; field).
  rewrite (int_floor q Hq).
  pose proof (Qlt_floor q) as Hf. rewrite inject_Z_plus in Hf.
  change (inject_Z 1) with 1 in Hf.
  assert (Hm : inject_Z (Qfloor q) <= inject_Z (Z.max 1 (Qfloor q)))
    by (rewrite <- Zle_Qle; lia).
  assert (H1 : 1 <= inject_Z (Z.max 1 (Qfloor q)))
    by (change 1 with (inject_Z 1); rewrite <- Zle_Qle; lia).
  split; [exact H1|]. rewrite Eq. lra.
Qed.

(** X16: with diesel and petrol between 0 and 1e300 an emitted EV Fleet
    scenario replaces at least one vehicle at 1500000 each, its savings are
    positive, and its ROI stays below 2.52 percent: the priority threshold
    of 12 is not reached and the priority is "Medium".  The upper bound
    keeps every product of the block inside the binary64 range; beyond it
    the program's savings overflow, which the rational figures do not
    show. *)
Theorem ev_fleet_always_medium
    (data : ActivityInput) (scope1 scope2 : dict Q) (total_emissions : Q) :
  0 <= diesel data <= 1e300 -> 0 <= petrol data <= 1e300 ->
  exists l,
    calculate_scenarios data scope1 scope2 (scope3 data) total_emissions = Ok l /\
    forall s, In s l -> String.prefix "EV Fleet" (name s) = true ->
      investment s == 1500000 * inject_Z (vehicles_to_replace data) /\
      1500000 <= investment s /\
      0 < ev_fuel_savings data /\ ev_roi data <= 2.52 /\
      0 <= roi_percent s <= 3 /\
      priority s = "Medium"%string.
Proof.
  intros [Hd _] [Hp _].
  eexists. split; [apply calculate_scenarios_shape, getitem_raw_materials|].
  intros s Hin Hn. pick_row Hin Hn G.
  destruct (vehicles_bound data Hd Hp) as [Hv Hq].
  set (n := inject_Z (vehicles_to_replace data)) in *.
  assert (Ei : ev_investment data == 1500000 * n).
  { unfold ev_investment, n. rewrite inject_Z_mult. change (inject_Z 1500000) with 1500000.
    ring. }
  assert (Hi : 0 < ev_investment data) by (rewrite Ei; lra).
  assert (Es : ev_fuel_savings data == 17.1 * diesel data + 18.9 * petrol data).
  { unfold ev_fuel_savings, vehicle_fuel_cost, ev_transition_pct,
      ENERGY_COSTS.diesel, ENERGY_COSTS.petrol, inject_Z. field. }
  assert (Hs : 0 < ev_fuel_savings data).
  { rewrite Es. apply orb_true_iff in G.
    destruct G as [G|G]; apply Qgtb_gt in G; lra. }
  assert (Hr : ev_roi data <= 2.52).
  { unfold ev_roi. rewrite (guarded_pos _ _ Hi).
    apply Qle_shift_div_r; [exact Hi|]. rewrite Ei, Es. lra. }
  assert (Hr0 : 0 <= ev_roi data).
  { unfold ev_roi. rewrite (guarded_pos _ _ Hi).
    apply Qle_shift_div_l; [exact Hi|]. lra. }
  cbn [investment roi_percent priority ev_row].
  split.
  { rewrite round_decimals; [exact Ei|].
    exists (vehicles_to_replace data * 1500000 * 100)%Z. unfold ev_investment.
    unfold Qeq, inject_Z. cbn. lia. }
  split; [apply ev_investment_lower|].
  split; [exact Hs|]. split; [exact Hr|]. split.
  - split; [apply round_nonneg, Hr0|].
    apply (round_upper 3). change (inject_Z 3) with 3. lra.
  - assert (E : Qgtb (ev_roi data) 12 = false) by (apply Qgtb_le; lra).
    rewrite E. reflexivity.
Qed.

Lemma ev_fleet_always_medium_witness :
  exists l,
    calculate_scenarios (read_form float_decimal [("petrol", "600")]%string) [] []
      (scope3 (read_form float_decimal [("petrol", "600")]%string)) 0 = Ok l /\
    forall s, In s l -> String.prefix "EV Fleet" (name s) = true ->
      1500000 <= investment s /\ priority s = "Medium"%string.
Proof.
  destruct (ev_fleet_always_medium (read_form float_decimal [("petrol", "600")]%string)
              [] [] 0) as (l & E & H);
    [split; discriminate | split; discriminate |].
  exists l. split; [exact E|]. intros s Hin Hp.
  destruct (H s Hin Hp) as (_ & Hi & _ & _ & _ & Hm). split; assumption.
Defined.
